(** * Football browser: TeamManager, PlayerManager, ApiService, UIManager

    A shallow embedding of the team/player browsing flow of the exercise
    (teamManager.js, playerManager.js, apiService.js, uiManager.js and the
    wiring of app.js), with the properties of the selection state proved
    over it.

    - JavaScript strings are modelled as Rocq strings whose characters
      stand for the UTF-16 code units 0..255 (the Latin-1 range).  On that
      range [toLowerCase] and [trim] below are the ECMAScript functions.
    - A field of a JSON record is [option string]: [None] is an absent or
      null property, [Some s] a string property (the API delivers strings).
    - The managers and the UIManager are stateful objects.  Both managers
      hold the same UIManager, so the world is one record [App] and every
      method is a computation in a state-and-exception monad [M].
    - A network request is resolved by a [FetchOutcome] handed to the
      method that awaits it. *)

From Stdlib Require Import String Ascii List Bool Arith Lia DecimalString.
From stdpp Require Import base list.
Import ListNotations.
Local Open Scope string_scope.
Local Open Scope list_scope.

(** ** JavaScript strings *)

Module JsString.

(** Code units with a distinct lower-case form: A-Z, and the Latin-1
    capitals U+00C0..U+00DE without the multiplication sign U+00D7. *)
Definition isUpper (c : ascii) : bool :=
  let n := nat_of_ascii c in
  (((65 <=? n) && (n <=? 90)) ||
   ((192 <=? n) && (n <=? 222) && negb (n =? 215)))%nat.

Definition lowerChar (c : ascii) : ascii :=
  if isUpper c then ascii_of_nat (nat_of_ascii c + 32) else c.

(** String.prototype.toLowerCase *)
Fixpoint toLowerCase (s : string) : string :=
  match s with
  | EmptyString => EmptyString
  | String c s' => String (lowerChar c) (toLowerCase s')
  end.

(** WhiteSpace and LineTerminator code units: TAB, LF, VT, FF, CR, SP and
    NBSP. *)
Definition isSpace (c : ascii) : bool :=
  let n := nat_of_ascii c in
  (((9 <=? n) && (n <=? 13)) || (n =? 32) || (n =? 160))%nat.

Fixpoint trimStart (s : string) : string :=
  match s with
  | EmptyString => EmptyString
  | String c s' => if isSpace c then trimStart s' else s
  end.

Fixpoint trimEnd (s : string) : string :=
  match s with
  | EmptyString => EmptyString
  | String c s' =>
      match trimEnd s' with
      | EmptyString => if isSpace c then EmptyString else String c EmptyString
      | t => String c t
      end
  end.

(** String.prototype.trim *)
Definition trim (s : string) : string := trimEnd (trimStart s).

(** String.prototype.includes: [sub] occurs in [s] at some position. *)
Fixpoint includes (s sub : string) : bool :=
  String.prefix sub s ||
  match s with
  | EmptyString => false
  | String _ s' => includes s' sub
  end.

(** ToBoolean on a string: only the empty string is falsy. *)
Definition truthy (s : string) : bool :=
  match s with
  | EmptyString => false
  | String _ _ => true
  end.

(** ToBoolean on a property that is a string, null or undefined. *)
Definition truthyField (f : option string) : bool :=
  match f with
  | None => false
  | Some s => truthy s
  end.

(** Number-to-string of a length, as a template literal prints it. *)
Definition ofNat (n : nat) : string := NilEmpty.string_of_uint (Nat.to_uint n).

End JsString.

(** ** Data model: the records of the JSON bodies *)

Record Team := mkTeam {
  idTeam : option string;
  strTeam : option string;
  strTeamBadge : option string;
  strLeague : option string;
  strStadium : option string;
  strStadiumLocation : option string;
  intFormedYear : option string
}.

Record Player := mkPlayer {
  strPlayer : option string;
  strPosition : option string;
  strNationality : option string;
  strThumb : option string;
  strCutout : option string;
  dateBorn : option string;
  strSigning : option string
}.

(** The two view types the application passes around, ['grid'] and
    ['list']. *)
Inductive View := GridView | ListView.

Inductive NotificationType := NInfo | NSuccess | NError.

(** The object stored in [PlayerManager.currentTeam]. *)
Record TeamInfo := mkTeamInfo {
  name : option string;
  badge : option string;
  league : option string
}.

(** ** Exceptions and the outcome of a request *)

Inductive Error :=
| FetchRejected                 (* fetch() rejected: no response at all *)
| HttpError (message : string)  (* new Error(...) thrown on !response.ok *)
| SyntaxError                   (* response.json() rejected *)
| TypeError.                    (* property read or call on null/undefined *)

(** What the body of a response decodes to: not JSON at all (or not an
    object), or an object whose list property is absent/null or an array. *)
Inductive Body (A : Type) :=
| Malformed
| Json (field : option (list A)).
Arguments Malformed {A}.
Arguments Json {A} field.

Inductive FetchOutcome (A : Type) :=
| NetworkError
| Response (ok : bool) (body : Body A).
Arguments NetworkError {A}.
Arguments Response {A} ok body.

(** ** The stateful objects *)

(** UIManager: the properties of [this.elements] that its methods write.
    A rendered container is represented by the records it was rendered
    from; [teamsContainer = []] is the "No se encontraron equipos"
    placeholder.  A [bool] for an element is "is it displayed/active". *)
Record UIManager := mkUIManager {
  countrySelect : string;                       (* .value *)
  loadTeamsBtn : bool;                          (* enabled *)
  teamsContainer : list (Team * View);
  teamsCount : string;                          (* .textContent *)
  totalTeams : string;                          (* .textContent *)
  countryTitle : string;                        (* .textContent *)
  gridViewBtn : bool;
  listViewBtn : bool;
  loadingOverlay : bool;
  notification : list (string * NotificationType);   (* toasts, oldest first *)
  playersSection : bool;
  teamInfo : bool;
  emptyPlayers : bool;
  playersContainer : list Player;
  teamBadge : string;                           (* .src *)
  teamName : option string;                     (* .textContent and badge .alt *)
  teamDetails : string * option string;         (* league text, country *)
  playersTitle : option string                  (* team name after "Plantilla: " *)
}.

Record TeamManager := mkTeamManager {
  teams : list Team;
  filteredTeams : list Team;
  currentCountry : string;
  currentView : View;
  searchTerm : string
}.

Record PlayerManager := mkPlayerManager {
  currentPlayers : list Player;
  currentTeam : option TeamInfo
}.

(** The application: the two managers, the UIManager they share, and the
    lines written with console.error. *)
Record App := mkApp {
  teamManager : TeamManager;
  playerManager : PlayerManager;
  uiManager : UIManager;
  console : list (string * Error)
}.

(** [new TeamManager(...)] and [new PlayerManager(...)] *)
Definition newTeamManager : TeamManager :=
  {| teams := []; filteredTeams := []; currentCountry := "";
     currentView := GridView; searchTerm := "" |}.

Definition newPlayerManager : PlayerManager :=
  {| currentPlayers := []; currentTeam := None |}.

(** [new FootballApp()] over the page [ui]. *)
Definition newApp (ui : UIManager) : App :=
  {| teamManager := newTeamManager; playerManager := newPlayerManager;
     uiManager := ui; console := [] |}.

(** ** The monad of methods: state and exceptions *)

Inductive Completion (A : Type) :=
| Normal (a : A)
| Throw (e : Error).
Arguments Normal {A} a.
Arguments Throw {A} e.

Definition M (A : Type) : Type := App -> Completion A * App.

Definition ret {A} (a : A) : M A := fun st => (Normal a, st).

Definition bind {A B} (m : M A) (k : A -> M B) : M B :=
  fun st =>
    match m st with
    | (Normal a, st') => k a st'
    | (Throw e, st') => (Throw e, st')
    end.

Definition throw {A} (e : Error) : M A := fun st => (Throw e, st).

Definition gets {A} (f : App -> A) : M A := fun st => (Normal (f st), st).

Definition modify (f : App -> App) : M unit := fun st => (Normal tt, f st).

Declare Scope js_scope.
Delimit Scope js_scope with js.
Notation "x <- c1 ;; c2" := (bind c1 (fun x => c2))
  (at level 100, c1 at next level, right associativity) : js_scope.
Notation "c1 ;; c2" := (bind c1 (fun _ => c2))
  (at level 100, right associativity) : js_scope.

(** [try { body } catch (error) { handler error }] *)
Definition tryCatch {A} (body : M A) (handler : Error -> M A) : M A :=
  fun st =>
    match body st with
    | (Normal a, st') => (Normal a, st')
    | (Throw e, st') => handler e st'
    end.

(** [try { body } finally { final }]: [final] runs on both exits and the
    completion of [body] stands unless [final] throws itself. *)
Definition tryFinally {A} (body : M A) (final : M unit) : M A :=
  fun st =>
    match body st with
    | (r, st') =>
        match final st' with
        | (Normal _, st'') => (r, st'')
        | (Throw e, st'') => (Throw e, st'')
        end
    end.

Definition tryCatchFinally {A} (body : M A) (handler : Error -> M A)
    (final : M unit) : M A :=
  tryFinally (tryCatch body handler) final.

(** Field assignments *)
Definition setTeamManager (f : TeamManager -> TeamManager) : M unit :=
  modify (fun st =>
    {| teamManager := f (teamManager st); playerManager := playerManager st;
       uiManager := uiManager st; console := console st |}).

Definition setPlayerManager (f : PlayerManager -> PlayerManager) : M unit :=
  modify (fun st =>
    {| teamManager := teamManager st; playerManager := f (playerManager st);
       uiManager := uiManager st; console := console st |}).

Definition setUIManager (f : UIManager -> UIManager) : M unit :=
  modify (fun st =>
    {| teamManager := teamManager st; playerManager := playerManager st;
       uiManager := f (uiManager st); console := console st |}).

(** [console.error(label, error)] *)
Definition consoleError (label : string) (e : Error) : M unit :=
  modify (fun st =>
    {| teamManager := teamManager st; playerManager := playerManager st;
       uiManager := uiManager st; console := console st ++ [(label, e)] |}).

Definition set_teams (v : list Team) (t : TeamManager) : TeamManager :=
  {| teams := v; filteredTeams := filteredTeams t;
     currentCountry := currentCountry t; currentView := currentView t;
     searchTerm := searchTerm t |}.

Definition set_filteredTeams (v : list Team) (t : TeamManager) : TeamManager :=
  {| teams := teams t; filteredTeams := v;
     currentCountry := currentCountry t; currentView := currentView t;
     searchTerm := searchTerm t |}.

Definition set_currentCountry (v : string) (t : TeamManager) : TeamManager :=
  {| teams := teams t; filteredTeams := filteredTeams t;
     currentCountry := v; currentView := currentView t;
     searchTerm := searchTerm t |}.

Definition set_currentView (v : View) (t : TeamManager) : TeamManager :=
  {| teams := teams t; filteredTeams := filteredTeams t;
     currentCountry := currentCountry t; currentView := v;
     searchTerm := searchTerm t |}.

Definition set_searchTerm (v : string) (t : TeamManager) : TeamManager :=
  {| teams := teams t; filteredTeams := filteredTeams t;
     currentCountry := currentCountry t; currentView := currentView t;
     searchTerm := v |}.

Definition set_currentPlayers (v : list Player) (p : PlayerManager) : PlayerManager :=
  {| currentPlayers := v; currentTeam := currentTeam p |}.

Definition set_currentTeam (v : option TeamInfo) (p : PlayerManager) : PlayerManager :=
  {| currentPlayers := currentPlayers p; currentTeam := v |}.

(** Property assignments on the elements of the UIManager *)
Definition set_teamsContainer (v : list (Team * View)) (ui : UIManager) : UIManager :=
  {| countrySelect := countrySelect ui; loadTeamsBtn := loadTeamsBtn ui;
     teamsContainer := v; teamsCount := teamsCount ui;
     totalTeams := totalTeams ui; countryTitle := countryTitle ui;
     gridViewBtn := gridViewBtn ui; listViewBtn := listViewBtn ui;
     loadingOverlay := loadingOverlay ui; notification := notification ui;
     playersSection := playersSection ui; teamInfo := teamInfo ui;
     emptyPlayers := emptyPlayers ui;
     playersContainer := playersContainer ui; teamBadge := teamBadge ui;
     teamName := teamName ui; teamDetails := teamDetails ui;
     playersTitle := playersTitle ui |}.

Definition set_teamsCount (v : string) (ui : UIManager) : UIManager :=
  {| countrySelect := countrySelect ui; loadTeamsBtn := loadTeamsBtn ui;
     teamsContainer := teamsContainer ui; teamsCount := v;
     totalTeams := totalTeams ui; countryTitle := countryTitle ui;
     gridViewBtn := gridViewBtn ui; listViewBtn := listViewBtn ui;
     loadingOverlay := loadingOverlay ui; notification := notification ui;
     playersSection := playersSection ui; teamInfo := teamInfo ui;
     emptyPlayers := emptyPlayers ui;
     playersContainer := playersContainer ui; teamBadge := teamBadge ui;
     teamName := teamName ui; teamDetails := teamDetails ui;
     playersTitle := playersTitle ui |}.

Definition set_totalTeams (v : string) (ui : UIManager) : UIManager :=
  {| countrySelect := countrySelect ui; loadTeamsBtn := loadTeamsBtn ui;
     teamsContainer := teamsContainer ui; teamsCount := teamsCount ui;
     totalTeams := v; countryTitle := countryTitle ui;
     gridViewBtn := gridViewBtn ui; listViewBtn := listViewBtn ui;
     loadingOverlay := loadingOverlay ui; notification := notification ui;
     playersSection := playersSection ui; teamInfo := teamInfo ui;
     emptyPlayers := emptyPlayers ui;
     playersContainer := playersContainer ui; teamBadge := teamBadge ui;
     teamName := teamName ui; teamDetails := teamDetails ui;
     playersTitle := playersTitle ui |}.

Definition set_countryTitle (v : string) (ui : UIManager) : UIManager :=
  {| countrySelect := countrySelect ui; loadTeamsBtn := loadTeamsBtn ui;
     teamsContainer := teamsContainer ui; teamsCount := teamsCount ui;
     totalTeams := totalTeams ui; countryTitle := v;
     gridViewBtn := gridViewBtn ui; listViewBtn := listViewBtn ui;
     loadingOverlay := loadingOverlay ui; notification := notification ui;
     playersSection := playersSection ui; teamInfo := teamInfo ui;
     emptyPlayers := emptyPlayers ui;
     playersContainer := playersContainer ui; teamBadge := teamBadge ui;
     teamName := teamName ui; teamDetails := teamDetails ui;
     playersTitle := playersTitle ui |}.

Definition set_gridViewBtn (v : bool) (ui : UIManager) : UIManager :=
  {| countrySelect := countrySelect ui; loadTeamsBtn := loadTeamsBtn ui;
     teamsContainer := teamsContainer ui; teamsCount := teamsCount ui;
     totalTeams := totalTeams ui; countryTitle := countryTitle ui;
     gridViewBtn := v; listViewBtn := listViewBtn ui;
     loadingOverlay := loadingOverlay ui; notification := notification ui;
     playersSection := playersSection ui; teamInfo := teamInfo ui;
     emptyPlayers := emptyPlayers ui;
     playersContainer := playersContainer ui; teamBadge := teamBadge ui;
     teamName := teamName ui; teamDetails := teamDetails ui;
     playersTitle := playersTitle ui |}.

Definition set_listViewBtn (v : bool) (ui : UIManager) : UIManager :=
  {| countrySelect := countrySelect ui; loadTeamsBtn := loadTeamsBtn ui;
     teamsContainer := teamsContainer ui; teamsCount := teamsCount ui;
     totalTeams := totalTeams ui; countryTitle := countryTitle ui;
     gridViewBtn := gridViewBtn ui; listViewBtn := v;
     loadingOverlay := loadingOverlay ui; notification := notification ui;
     playersSection := playersSection ui; teamInfo := teamInfo ui;
     emptyPlayers := emptyPlayers ui;
     playersContainer := playersContainer ui; teamBadge := teamBadge ui;
     teamName := teamName ui; teamDetails := teamDetails ui;
     playersTitle := playersTitle ui |}.

Definition set_loadingOverlay (v : bool) (ui : UIManager) : UIManager :=
  {| countrySelect := countrySelect ui; loadTeamsBtn := loadTeamsBtn ui;
     teamsContainer := teamsContainer ui; teamsCount := teamsCount ui;
     totalTeams := totalTeams ui; countryTitle := countryTitle ui;
     gridViewBtn := gridViewBtn ui; listViewBtn := listViewBtn ui;
     loadingOverlay := v; notification := notification ui;
     playersSection := playersSection ui; teamInfo := teamInfo ui;
     emptyPlayers := emptyPlayers ui;
     playersContainer := playersContainer ui; teamBadge := teamBadge ui;
     teamName := teamName ui; teamDetails := teamDetails ui;
     playersTitle := playersTitle ui |}.

Definition set_notification (v : list (string * NotificationType)) (ui : UIManager) : UIManager :=
  {| countrySelect := countrySelect ui; loadTeamsBtn := loadTeamsBtn ui;
     teamsContainer := teamsContainer ui; teamsCount := teamsCount ui;
     totalTeams := totalTeams ui; countryTitle := countryTitle ui;
     gridViewBtn := gridViewBtn ui; listViewBtn := listViewBtn ui;
     loadingOverlay := loadingOverlay ui; notification := v;
     playersSection := playersSection ui; teamInfo := teamInfo ui;
     emptyPlayers := emptyPlayers ui;
     playersContainer := playersContainer ui; teamBadge := teamBadge ui;
     teamName := teamName ui; teamDetails := teamDetails ui;
     playersTitle := playersTitle ui |}.

Definition set_playersSection (v : bool) (ui : UIManager) : UIManager :=
  {| countrySelect := countrySelect ui; loadTeamsBtn := loadTeamsBtn ui;
     teamsContainer := teamsContainer ui; teamsCount := teamsCount ui;
     totalTeams := totalTeams ui; countryTitle := countryTitle ui;
     gridViewBtn := gridViewBtn ui; listViewBtn := listViewBtn ui;
     loadingOverlay := loadingOverlay ui; notification := notification ui;
     playersSection := v; teamInfo := teamInfo ui;
     emptyPlayers := emptyPlayers ui;
     playersContainer := playersContainer ui; teamBadge := teamBadge ui;
     teamName := teamName ui; teamDetails := teamDetails ui;
     playersTitle := playersTitle ui |}.

Definition set_teamInfo (v : bool) (ui : UIManager) : UIManager :=
  {| countrySelect := countrySelect ui; loadTeamsBtn := loadTeamsBtn ui;
     teamsContainer := teamsContainer ui; teamsCount := teamsCount ui;
     totalTeams := totalTeams ui; countryTitle := countryTitle ui;
     gridViewBtn := gridViewBtn ui; listViewBtn := listViewBtn ui;
     loadingOverlay := loadingOverlay ui; notification := notification ui;
     playersSection := playersSection ui; teamInfo := v;
     emptyPlayers := emptyPlayers ui;
     playersContainer := playersContainer ui; teamBadge := teamBadge ui;
     teamName := teamName ui; teamDetails := teamDetails ui;
     playersTitle := playersTitle ui |}.

Definition set_emptyPlayers (v : bool) (ui : UIManager) : UIManager :=
  {| countrySelect := countrySelect ui; loadTeamsBtn := loadTeamsBtn ui;
     teamsContainer := teamsContainer ui; teamsCount := teamsCount ui;
     totalTeams := totalTeams ui; countryTitle := countryTitle ui;
     gridViewBtn := gridViewBtn ui; listViewBtn := listViewBtn ui;
     loadingOverlay := loadingOverlay ui; notification := notification ui;
     playersSection := playersSection ui; teamInfo := teamInfo ui;
     emptyPlayers := v; playersContainer := playersContainer ui;
     teamBadge := teamBadge ui; teamName := teamName ui;
     teamDetails := teamDetails ui; playersTitle := playersTitle ui |}.

Definition set_playersContainer (v : list Player) (ui : UIManager) : UIManager :=
  {| countrySelect := countrySelect ui; loadTeamsBtn := loadTeamsBtn ui;
     teamsContainer := teamsContainer ui; teamsCount := teamsCount ui;
     totalTeams := totalTeams ui; countryTitle := countryTitle ui;
     gridViewBtn := gridViewBtn ui; listViewBtn := listViewBtn ui;
     loadingOverlay := loadingOverlay ui; notification := notification ui;
     playersSection := playersSection ui; teamInfo := teamInfo ui;
     emptyPlayers := emptyPlayers ui; playersContainer := v;
     teamBadge := teamBadge ui; teamName := teamName ui;
     teamDetails := teamDetails ui; playersTitle := playersTitle ui |}.

Definition set_teamBadge (v : string) (ui : UIManager) : UIManager :=
  {| countrySelect := countrySelect ui; loadTeamsBtn := loadTeamsBtn ui;
     teamsContainer := teamsContainer ui; teamsCount := teamsCount ui;
     totalTeams := totalTeams ui; countryTitle := countryTitle ui;
     gridViewBtn := gridViewBtn ui; listViewBtn := listViewBtn ui;
     loadingOverlay := loadingOverlay ui; notification := notification ui;
     playersSection := playersSection ui; teamInfo := teamInfo ui;
     emptyPlayers := emptyPlayers ui;
     playersContainer := playersContainer ui; teamBadge := v;
     teamName := teamName ui; teamDetails := teamDetails ui;
     playersTitle := playersTitle ui |}.

Definition set_teamName (v : option string) (ui : UIManager) : UIManager :=
  {| countrySelect := countrySelect ui; loadTeamsBtn := loadTeamsBtn ui;
     teamsContainer := teamsContainer ui; teamsCount := teamsCount ui;
     totalTeams := totalTeams ui; countryTitle := countryTitle ui;
     gridViewBtn := gridViewBtn ui; listViewBtn := listViewBtn ui;
     loadingOverlay := loadingOverlay ui; notification := notification ui;
     playersSection := playersSection ui; teamInfo := teamInfo ui;
     emptyPlayers := emptyPlayers ui;
     playersContainer := playersContainer ui; teamBadge := teamBadge ui;
     teamName := v; teamDetails := teamDetails ui;
     playersTitle := playersTitle ui |}.

Definition set_teamDetails (v : string * option string) (ui : UIManager) : UIManager :=
  {| countrySelect := countrySelect ui; loadTeamsBtn := loadTeamsBtn ui;
     teamsContainer := teamsContainer ui; teamsCount := teamsCount ui;
     totalTeams := totalTeams ui; countryTitle := countryTitle ui;
     gridViewBtn := gridViewBtn ui; listViewBtn := listViewBtn ui;
     loadingOverlay := loadingOverlay ui; notification := notification ui;
     playersSection := playersSection ui; teamInfo := teamInfo ui;
     emptyPlayers := emptyPlayers ui;
     playersContainer := playersContainer ui; teamBadge := teamBadge ui;
     teamName := teamName ui; teamDetails := v;
     playersTitle := playersTitle ui |}.

Definition set_playersTitle (v : option string) (ui : UIManager) : UIManager :=
  {| countrySelect := countrySelect ui; loadTeamsBtn := loadTeamsBtn ui;
     teamsContainer := teamsContainer ui; teamsCount := teamsCount ui;
     totalTeams := totalTeams ui; countryTitle := countryTitle ui;
     gridViewBtn := gridViewBtn ui; listViewBtn := listViewBtn ui;
     loadingOverlay := loadingOverlay ui; notification := notification ui;
     playersSection := playersSection ui; teamInfo := teamInfo ui;
     emptyPlayers := emptyPlayers ui;
     playersContainer := playersContainer ui; teamBadge := teamBadge ui;
     teamName := teamName ui; teamDetails := teamDetails ui;
     playersTitle := v |}.

(** Method chaining on the page, in the order of the calls. *)
Notation "x |> f" := (f x) (at level 68, left associativity, only parsing).

(** ** UIManager (uiManager.js) *)

Definition placeholderTeam : string := "https://via.placeholder.com/50x50?text=Team".

(** The value of [a || d] for a string-or-absent [a]. *)
Definition orDefault (a : option string) (d : string) : string :=
  match a with
  | Some s => if JsString.truthy s then s else d
  | None => d
  end.

Definition displayTeams (ts : list Team) (viewType : View) (ui : UIManager)
  : UIManager :=
  match ts with
  | [] => ui |> set_teamsContainer []
  | _ => ui |> set_teamsContainer (List.map (fun team => (team, viewType)) ts)
  end.

Definition updateCounters (count : nat) (total : option nat) (ui : UIManager)
  : UIManager :=
  let ui := ui |> set_teamsCount (JsString.ofNat count ++ " equipos") in
  match total with
  | Some n => ui |> set_totalTeams (JsString.ofNat n)
  | None => ui
  end.

Definition updateCountryTitle (country : string) (ui : UIManager) : UIManager :=
  ui |> set_countryTitle
          (if JsString.truthy country then "Equipos de " ++ country else "Equipos").

Definition showLoading (show : bool) (ui : UIManager) : UIManager :=
  ui |> set_loadingOverlay show.

Definition showNotification (message : string) (type : NotificationType)
    (ui : UIManager) : UIManager :=
  ui |> set_notification (notification ui ++ [(message, type)]).

Definition hidePlayersSection (ui : UIManager) : UIManager :=
  ui |> set_playersSection false |> set_teamInfo false |> set_emptyPlayers false.

Definition setViewButtons (activeView : View) (ui : UIManager) : UIManager :=
  ui |> set_gridViewBtn (match activeView with GridView => true | _ => false end)
     |> set_listViewBtn (match activeView with ListView => true | _ => false end).

Definition displayPlayers (players : list Player)
    (teamName teamBadge teamLeague country : option string) (ui : UIManager)
  : UIManager :=
  let ui := ui |> set_teamInfo true
               |> set_teamBadge (orDefault teamBadge placeholderTeam)
               |> set_teamName teamName
               |> set_teamDetails (orDefault teamLeague "Sin liga", country)
               |> set_playersTitle teamName
               |> set_playersContainer [] in
  match players with
  | [] => ui |> set_emptyPlayers true
  | _ => ui |> set_emptyPlayers false
            |> set_playersContainer players
            |> set_playersSection true
  end.

(** ** ApiService (apiService.js) *)

(** The common body of the three request methods: one GET, a throw on a
    response that is not ok, the decoded list property or [[]] when it is
    absent; every failure is logged and thrown again. *)
Definition request {A} (label message : string) (net : FetchOutcome A)
  : M (list A) :=
  tryCatch
    (match net with
     | NetworkError => throw FetchRejected
     | Response ok body =>
         if negb ok then throw (HttpError message)
         else match body with
              | Malformed => throw SyntaxError
              | Json (Some l) => ret l
              | Json None => ret []
              end
     end)
    (fun error => (consoleError label error ;; throw error)%js).

Definition getTeamsByCountry (net : FetchOutcome Team) (country : string)
  : M (list Team) :=
  request "Error en getTeamsByCountry:" "Error al cargar equipos" net.

Definition getPlayersByTeam (net : FetchOutcome Player) (teamId : string)
  : M (list Player) :=
  request "Error en getPlayersByTeam:" "Error al cargar jugadores" net.

(** ** Array and string methods that can throw *)

(** [value.toLowerCase()] on a property: a TypeError on null/undefined. *)
Definition callToLowerCase (value : option string) : M string :=
  match value with
  | Some s => ret (JsString.toLowerCase s)
  | None => throw TypeError
  end.

(** [Array.prototype.filter]: the callback runs on every element from the
    left; the first exception it throws abandons the whole call. *)
Fixpoint Array_filter {A} (callback : A -> M bool) (l : list A) : M (list A) :=
  match l with
  | [] => ret []
  | x :: l' =>
      (keep <- callback x ;;
       rest <- Array_filter callback l' ;;
       ret (if keep then x :: rest else rest))%js
  end.

(** ** TeamManager (teamManager.js) *)

Local Open Scope js_scope.

Definition this_teams : M (list Team) := gets (fun st => teams (teamManager st)).
Definition this_filteredTeams : M (list Team) :=
  gets (fun st => filteredTeams (teamManager st)).
Definition this_currentView : M View := gets (fun st => currentView (teamManager st)).
Definition this_searchTerm : M string := gets (fun st => searchTerm (teamManager st)).

(** [field && field.toLowerCase().includes(this.searchTerm)], as a
    condition. *)
Definition guardedIncludes (field : option string) : M bool :=
  if JsString.truthyField field then
    lowered <- callToLowerCase field ;;
    term <- this_searchTerm ;;
    ret (JsString.includes lowered term)
  else ret false.

(** The arrow function handed to [this.teams.filter]. *)
Definition teamMatches (team : Team) : M bool :=
  lowered <- callToLowerCase (strTeam team) ;;
  term <- this_searchTerm ;;
  if JsString.includes lowered term then ret true
  else
    inLeague <- guardedIncludes (strLeague team) ;;
    if inLeague then ret true
    else guardedIncludes (strStadium team).

Definition loadTeams (net : FetchOutcome Team) (country : option string)
  : M unit :=
  match country with
  | None => ret tt
  | Some country =>
      if negb (JsString.truthy country) then ret tt
      else
        setTeamManager (set_currentCountry country) ;;
        setUIManager (showLoading true) ;;
        setUIManager (updateCountryTitle country) ;;
        tryCatchFinally
          (fetched <- getTeamsByCountry net country ;;
           setTeamManager (set_teams fetched) ;;
           all <- this_teams ;;
           setTeamManager (set_filteredTeams all) ;;
           setTeamManager (set_searchTerm "") ;;
           shown <- this_filteredTeams ;;
           view <- this_currentView ;;
           setUIManager (displayTeams shown view) ;;
           setUIManager (updateCounters (length shown) (Some (length all))) ;;
           setUIManager
             (showNotification
                (JsString.ofNat (length all) ++ " equipos cargados de " ++ country)
                NSuccess) ;;
           setUIManager hidePlayersSection)
          (fun error =>
             consoleError "Error cargando equipos:" error ;;
             setUIManager (showNotification "Error al cargar los equipos" NError) ;;
             view <- this_currentView ;;
             setUIManager (displayTeams [] view))
          (setUIManager (showLoading false))
  end.

Definition filterTeams (searchTerm : string) : M unit :=
  setTeamManager
    (set_searchTerm (JsString.trim (JsString.toLowerCase searchTerm))) ;;
  term <- this_searchTerm ;;
  (if negb (JsString.truthy term) then
     all <- this_teams ;;
     setTeamManager (set_filteredTeams all)
   else
     all <- this_teams ;;
     kept <- Array_filter teamMatches all ;;
     setTeamManager (set_filteredTeams kept)) ;;
  shown <- this_filteredTeams ;;
  view <- this_currentView ;;
  setUIManager (displayTeams shown view) ;;
  setUIManager (updateCounters (length shown) None).

Definition switchView (viewType : View) : M unit :=
  setTeamManager (set_currentView viewType) ;;
  shown <- this_filteredTeams ;;
  if (0 <? length shown)%nat then
    setUIManager (displayTeams shown viewType) ;;
    setUIManager (setViewButtons viewType)
  else ret tt.

Definition clearTeams : M unit :=
  setTeamManager (set_teams []) ;;
  setTeamManager (set_filteredTeams []) ;;
  setTeamManager (set_currentCountry "") ;;
  setTeamManager (set_searchTerm "") ;;
  view <- this_currentView ;;
  setUIManager (displayTeams [] view) ;;
  setUIManager (updateCounters 0 None) ;;
  setUIManager (updateCountryTitle "").

(** ** PlayerManager (playerManager.js) *)

Definition loadPlayers (net : FetchOutcome Player)
    (teamId teamName teamBadge teamLeague : option string) : M unit :=
  match teamId with
  | None => ret tt
  | Some teamId =>
      if negb (JsString.truthy teamId) then ret tt
      else
        setUIManager (showLoading true) ;;
        tryCatchFinally
          (players <- getPlayersByTeam net teamId ;;
           setPlayerManager (set_currentPlayers players) ;;
           setPlayerManager
             (set_currentTeam
                (Some {| name := teamName; badge := teamBadge;
                         league := teamLeague |})) ;;
           country <- gets (fun st => countrySelect (uiManager st)) ;;
           setUIManager
             (displayPlayers players teamName teamBadge teamLeague (Some country)) ;;
           setUIManager
             (showNotification
                (JsString.ofNat (length players) ++ " jugadores cargados")
                NSuccess))
          (fun error =>
             consoleError "Error cargando jugadores:" error ;;
             setUIManager (showNotification "Error al cargar los jugadores" NError) ;;
             setUIManager (displayPlayers [] teamName teamBadge teamLeague None))
          (setUIManager (showLoading false))
  end.

Definition hidePlayers : M unit :=
  setPlayerManager (set_currentPlayers []) ;;
  setPlayerManager (set_currentTeam None) ;;
  setUIManager hidePlayersSection.

Local Close Scope js_scope.

(** * Properties *)

(** ** Vocabulary of the statements *)

(** The team has a name: [strTeam] is a string. *)
Definition hasName (team : Team) : Prop := strTeam team <> None.

(** The field is a string whose lower-case form contains [term]. *)
Definition fieldIncludes (field : option string) (term : string) : bool :=
  match field with
  | Some s => JsString.includes (JsString.toLowerCase s) term
  | None => false
  end.

(** The matching predicate of the code as a total function: the name, the
    league or the stadium ([strStadium]) of the team contains [term]. *)
Definition matchesTerm (term : string) (team : Team) : bool :=
  fieldIncludes (strTeam team) term ||
  fieldIncludes (strLeague team) term ||
  fieldIncludes (strStadium team) term.

(** The normal form of a search text. *)
Definition normalize (text : string) : string :=
  JsString.trim (JsString.toLowerCase text).

(** What a request delivers: the list on success, nothing on a failure
    (no response, a status that is not ok, a body that does not decode). *)
Definition delivered {A} (net : FetchOutcome A) : option (list A) :=
  match net with
  | Response true (Json (Some l)) => Some l
  | Response true (Json None) => Some []
  | _ => None
  end.

(** The state in which [this.teams] is [L] and all else is as in [st]. *)
Definition withTeams (L : list Team) (st : App) : App :=
  {| teamManager := set_teams L (teamManager st);
     playerManager := playerManager st;
     uiManager := uiManager st; console := console st |}.

(** filter(L, s): what [filterTeams(s)] leaves in [this.filteredTeams] when
    [this.teams] is [L], or the exception it ends with. *)
Definition filtered (st : App) (L : list Team) (s : string)
  : Completion (list Team) :=
  match filterTeams s (withTeams L st) with
  | (Normal _, st') => Normal (filteredTeams (teamManager st'))
  | (Throw e, _) => Throw e
  end.

(** The state once [this.searchTerm] has been assigned. *)
Definition termSet (s : string) (st : App) : App :=
  {| teamManager := set_searchTerm (normalize s) (teamManager st);
     playerManager := playerManager st;
     uiManager := uiManager st; console := console st |}.

(** The state at the end of [filterTeams(s)] when [kept] is the list it
    stored in [this.filteredTeams]. *)
Definition afterFilter (s : string) (kept : list Team) (st : App) : App :=
  {| teamManager :=
       set_filteredTeams kept (set_searchTerm (normalize s) (teamManager st));
     playerManager := playerManager st;
     uiManager :=
       updateCounters (length kept) None
         (displayTeams kept (currentView (teamManager st)) (uiManager st));
     console := console st |}.

(** The exception a failing request ends with. *)
Definition failureOf {A} (message : string) (net : FetchOutcome A) : Error :=
  match net with
  | NetworkError => FetchRejected
  | Response false _ => HttpError message
  | Response true _ => SyntaxError
  end.

(** The state at the end of [loadTeams(country)] when the request
    delivered [L]. *)
Definition teamsLoaded (country : string) (L : list Team) (st : App) : App :=
  let view := currentView (teamManager st) in
  {| teamManager :=
       {| teams := L; filteredTeams := L; currentCountry := country;
          currentView := view; searchTerm := "" |};
     playerManager := playerManager st;
     uiManager :=
       uiManager st
       |> showLoading true
       |> updateCountryTitle country
       |> displayTeams L view
       |> updateCounters (length L) (Some (length L))
       |> showNotification
            (JsString.ofNat (length L) ++ " equipos cargados de " ++ country)
            NSuccess
       |> hidePlayersSection
       |> showLoading false;
     console := console st |}.

(** The state at the end of [loadTeams(country)] when the request failed
    with [e]. *)
Definition teamsFailed (country : string) (e : Error) (st : App) : App :=
  {| teamManager := set_currentCountry country (teamManager st);
     playerManager := playerManager st;
     uiManager :=
       uiManager st
       |> showLoading true
       |> updateCountryTitle country
       |> showNotification "Error al cargar los equipos" NError
       |> displayTeams [] (currentView (teamManager st))
       |> showLoading false;
     console :=
       (console st ++ [("Error en getTeamsByCountry:", e)])
       ++ [("Error cargando equipos:", e)] |}.

(** The state at the end of [loadPlayers(teamId, ...)] when the request
    delivered [players]. *)
Definition playersLoaded (players : list Player)
    (teamName teamBadge teamLeague : option string) (st : App) : App :=
  {| teamManager := teamManager st;
     playerManager :=
       {| currentPlayers := players;
          currentTeam :=
            Some {| name := teamName; badge := teamBadge; league := teamLeague |} |};
     uiManager :=
       uiManager st
       |> showLoading true
       |> displayPlayers players teamName teamBadge teamLeague
            (Some (countrySelect (uiManager st)))
       |> showNotification
            (JsString.ofNat (length players) ++ " jugadores cargados") NSuccess
       |> showLoading false;
     console := console st |}.

(** The state at the end of [loadPlayers(teamId, ...)] when the request
    failed with [e]. *)
Definition playersFailed (e : Error)
    (teamName teamBadge teamLeague : option string) (st : App) : App :=
  {| teamManager := teamManager st;
     playerManager := playerManager st;
     uiManager :=
       uiManager st
       |> showLoading true
       |> showNotification "Error al cargar los jugadores" NError
       |> displayPlayers [] teamName teamBadge teamLeague None
       |> showLoading false;
     console :=
       (console st ++ [("Error en getPlayersByTeam:", e)])
       ++ [("Error cargando jugadores:", e)] |}.

(** An argument that [if (!x) return] lets through. *)
Definition given (x : option string) : bool := JsString.truthyField x.

(** ** Sequences of operations on the team list *)

Inductive Op :=
| OpLoadTeams (net : FetchOutcome Team) (country : option string)
| OpFilterTeams (text : string).

(** The state an operation leaves behind, however it completes. *)
Definition step (st : App) (op : Op) : App :=
  match op with
  | OpLoadTeams net country => snd (loadTeams net country st)
  | OpFilterTeams text => snd (filterTeams text st)
  end.

Definition runOps (ops : list Op) (st : App) : App := fold_left step ops st.

(** Every team a load delivers has a name. *)
Definition opNamed (op : Op) : Prop :=
  match op with
  | OpLoadTeams net _ =>
      match delivered net with
      | Some L => Forall hasName L
      | None => True
      end
  | OpFilterTeams _ => True
  end.

(** The matching predicate in the words of the specification: the name,
    the league or the stadium location contains [term]. *)
Definition specMatches (term : string) (team : Team) : bool :=
  fieldIncludes (strTeam team) term ||
  fieldIncludes (strLeague team) term ||
  fieldIncludes (strStadiumLocation team) term.

(** The filtered view the specification asks for in a state. *)
Definition specView (st : App) : list Team :=
  List.filter (specMatches (searchTerm (teamManager st))) (teams (teamManager st)).

(** The filtered view by the predicate of the code. *)
Definition codeView (st : App) : list Team :=
  List.filter (matchesTerm (searchTerm (teamManager st))) (teams (teamManager st)).

(** The invariant: every loaded team has a name and the filtered list is
    the view of the loaded list under the stored term. *)
Definition viewInvariant (st : App) : Prop :=
  Forall hasName (teams (teamManager st)) /\
  filteredTeams (teamManager st) = codeView st.

(** ** Sample data *)

Module Sample.

(** A page as the document delivers it: nothing rendered, grid active. *)
Definition page : UIManager :=
  {| countrySelect := "Spain"; loadTeamsBtn := true; teamsContainer := [];
     teamsCount := "0 equipos"; totalTeams := "0"; countryTitle := "Equipos";
     gridViewBtn := true; listViewBtn := false; loadingOverlay := false;
     notification := []; playersSection := false; teamInfo := false;
     emptyPlayers := false; playersContainer := []; teamBadge := "";
     teamName := None; teamDetails := ("", None); playersTitle := None |}.

(** A team of which only the name is known. *)
Definition named (n : string) : Team :=
  {| idTeam := None; strTeam := Some n; strTeamBadge := None;
     strLeague := None; strStadium := None; strStadiumLocation := None;
     intFormedYear := None |}.

Definition nameless : Team :=
  {| idTeam := Some "1"; strTeam := None; strTeamBadge := None;
     strLeague := Some "Spanish La Liga"; strStadium := None;
     strStadiumLocation := None; intFormedYear := None |}.

Definition realBetis : Team :=
  {| idTeam := Some "133722"; strTeam := Some "Real Betis";
     strTeamBadge := None; strLeague := Some "Spanish La Liga";
     strStadium := Some "Estadio Benito Villamarin";
     strStadiumLocation := Some "Sevilla"; intFormedYear := Some "1907" |}.

Definition sevillaFC : Team :=
  {| idTeam := Some "133724"; strTeam := Some "Sevilla FC";
     strTeamBadge := None; strLeague := Some "Spanish La Liga";
     strStadium := Some "Ramon Sanchez Pizjuan";
     strStadiumLocation := Some "Sevilla"; intFormedYear := Some "1890" |}.

Definition isco : Player :=
  {| strPlayer := Some "Isco"; strPosition := Some "Midfielder";
     strNationality := Some "Spain"; strThumb := None; strCutout := None;
     dateBorn := Some "1992-04-21"; strSigning := None |}.

Definition success {A} (L : list A) : FetchOutcome A := Response true (Json (Some L)).

(** A response with status 500. *)
Definition http500 {A} : FetchOutcome A := Response false Malformed.

(** The application after "Spain" delivered the two teams. *)
Definition spainLoaded : App :=
  snd (loadTeams (success [realBetis; sevillaFC]) (Some "Spain") (newApp page)).

(** ... and after the roster of Real Betis was opened. *)
Definition rosterOpen : App :=
  snd (loadPlayers (success [isco]) (Some "133722") (Some "Real Betis")
         None (Some "Spanish La Liga") spainLoaded).

End Sample.

(** ** The remaining methods of the managers and of the services *)

(** An entry of the [countries] list of all_countries.php. *)
Record Country := mkCountry { name_en : option string }.

(** "Error al cargar países": the i with acute accent is the code
    unit 237. *)
Definition errorCountries : string :=
  "Error al cargar pa" ++ String (ascii_of_nat 237) "ses".

Definition getCountries (net : FetchOutcome Country) : M (list Country) :=
  request "Error en getCountries:" errorCountries net.

Definition getCurrentCountry : M string :=
  gets (fun st => currentCountry (teamManager st)).

Definition getCurrentTeam : M (option TeamInfo) :=
  gets (fun st => currentTeam (playerManager st)).

Definition getPlayerCount : M nat :=
  gets (fun st => length (currentPlayers (playerManager st))).

Definition set_countrySelect (v : string) (ui : UIManager) : UIManager :=
  {| countrySelect := v; loadTeamsBtn := loadTeamsBtn ui;
     teamsContainer := teamsContainer ui; teamsCount := teamsCount ui;
     totalTeams := totalTeams ui; countryTitle := countryTitle ui;
     gridViewBtn := gridViewBtn ui; listViewBtn := listViewBtn ui;
     loadingOverlay := loadingOverlay ui; notification := notification ui;
     playersSection := playersSection ui; teamInfo := teamInfo ui;
     emptyPlayers := emptyPlayers ui;
     playersContainer := playersContainer ui; teamBadge := teamBadge ui;
     teamName := teamName ui; teamDetails := teamDetails ui;
     playersTitle := playersTitle ui |}.

Definition set_loadTeamsBtn (v : bool) (ui : UIManager) : UIManager :=
  {| countrySelect := countrySelect ui; loadTeamsBtn := v;
     teamsContainer := teamsContainer ui; teamsCount := teamsCount ui;
     totalTeams := totalTeams ui; countryTitle := countryTitle ui;
     gridViewBtn := gridViewBtn ui; listViewBtn := listViewBtn ui;
     loadingOverlay := loadingOverlay ui; notification := notification ui;
     playersSection := playersSection ui; teamInfo := teamInfo ui;
     emptyPlayers := emptyPlayers ui;
     playersContainer := playersContainer ui; teamBadge := teamBadge ui;
     teamName := teamName ui; teamDetails := teamDetails ui;
     playersTitle := playersTitle ui |}.

(** [loadTeamsBtn.disabled = !enable]; the field holds "enabled". *)
Definition enableLoadButton (enable : bool) (ui : UIManager) : UIManager :=
  ui |> set_loadTeamsBtn (negb (negb enable)).

(** ** FootballApp (app.js): the listeners *)

(** What the user does to the page.  A click on a button that starts a
    request carries the outcome of that request, which is resolved before
    the next event is handled; [TeamSelected] is the click on the roster
    button of a card, with the values of its data attributes. *)
Inductive Event :=
| CountryChange (value : string)
| LoadTeamsClick (net : FetchOutcome Team)
| TeamSearchInput (value : string)
| GridViewClick
| ListViewClick
| RefreshTeamsClick (net : FetchOutcome Team)
| ClosePlayersClick
| TeamSelected (net : FetchOutcome Player)
    (teamId teamName teamBadge teamLeague : option string).

(** The listener of each event (setupEventListeners, and
    setupEventDelegation of the UIManager for [TeamSelected]). *)
Definition handle (ev : Event) : M unit :=
  match ev with
  | CountryChange value =>
      (setUIManager (set_countrySelect value) ;;
       country <- gets (fun st => countrySelect (uiManager st)) ;;
       setUIManager (enableLoadButton (JsString.truthy country)))%js
  | LoadTeamsClick net =>
      (country <- gets (fun st => countrySelect (uiManager st)) ;;
       if JsString.truthy country then loadTeams net (Some country)
       else ret tt)%js
  | TeamSearchInput value => filterTeams value
  | GridViewClick => switchView GridView
  | ListViewClick => switchView ListView
  | RefreshTeamsClick net =>
      (country <- gets (fun st => countrySelect (uiManager st)) ;;
       if JsString.truthy country then loadTeams net (Some country)
       else ret tt)%js
  | ClosePlayersClick => hidePlayers
  | TeamSelected net teamId teamName teamBadge teamLeague =>
      if JsString.truthyField teamId
      then loadPlayers net teamId teamName teamBadge teamLeague
      else ret tt
  end.

(** The state a listener leaves behind; an exception it lets escape is
    reported by the browser and the page goes on. *)
Definition dispatch (st : App) (ev : Event) : App := snd (handle ev st).

Definition runEvents (evs : list Event) (st : App) : App :=
  fold_left dispatch evs st.

(** ** Vocabulary of the statements about events *)

Definition namedB (team : Team) : bool :=
  match strTeam team with
  | Some _ => true
  | None => false
  end.

(** The state at the end of [switchView(viewType)]. *)
Definition viewSwitched (viewType : View) (st : App) : App :=
  {| teamManager := set_currentView viewType (teamManager st);
     playerManager := playerManager st;
     uiManager :=
       match filteredTeams (teamManager st) with
       | [] => uiManager st
       | shown => uiManager st |> displayTeams shown viewType
                               |> setViewButtons viewType
       end;
     console := console st |}.

(** The state at the end of [hidePlayers()]. *)
Definition playersHidden (st : App) : App :=
  {| teamManager := teamManager st;
     playerManager := newPlayerManager;
     uiManager := hidePlayersSection (uiManager st);
     console := console st |}.

(** The state at the end of [clearTeams()]. *)
Definition teamsCleared (st : App) : App :=
  {| teamManager :=
       {| teams := []; filteredTeams := []; currentCountry := "";
          currentView := currentView (teamManager st); searchTerm := "" |};
     playerManager := playerManager st;
     uiManager :=
       uiManager st
       |> displayTeams [] (currentView (teamManager st))
       |> updateCounters 0 None
       |> updateCountryTitle "";
     console := console st |}.

(** The state at the end of a load of the teams of [country]. *)
Definition teamsRequested (net : FetchOutcome Team) (country : string)
    (st : App) : App :=
  if JsString.truthy country then
    match delivered net with
    | Some L => teamsLoaded country L st
    | None => teamsFailed country (failureOf "Error al cargar equipos" net) st
    end
  else st.

(** The state at the end of a load of the players of a team. *)
Definition playersRequested (net : FetchOutcome Player)
    (teamId teamName teamBadge teamLeague : option string) (st : App) : App :=
  if given teamId then
    match delivered net with
    | Some players => playersLoaded players teamName teamBadge teamLeague st
    | None =>
        playersFailed (failureOf "Error al cargar jugadores" net)
          teamName teamBadge teamLeague st
    end
  else st.

(** The state at the end of [filterTeams(text)], or at its throw. *)
Definition teamsFiltered (text : string) (st : App) : App :=
  let all := teams (teamManager st) in
  if JsString.truthy (normalize text) then
    if forallb namedB all
    then afterFilter text (List.filter (matchesTerm (normalize text)) all) st
    else termSet text st
  else afterFilter text all st.

(** The state after an event, in closed form. *)
Definition dispatched (st : App) (ev : Event) : App :=
  match ev with
  | CountryChange value =>
      {| teamManager := teamManager st; playerManager := playerManager st;
         uiManager :=
           uiManager st |> set_countrySelect value
                        |> enableLoadButton (JsString.truthy value);
         console := console st |}
  | LoadTeamsClick net | RefreshTeamsClick net =>
      teamsRequested net (countrySelect (uiManager st)) st
  | TeamSearchInput text => teamsFiltered text st
  | GridViewClick => viewSwitched GridView st
  | ListViewClick => viewSwitched ListView st
  | ClosePlayersClick => playersHidden st
  | TeamSelected net teamId teamName teamBadge teamLeague =>
      playersRequested net teamId teamName teamBadge teamLeague st
  end.

(** The lists the requests of a sequence of events delivered. *)
Fixpoint deliveredLists (evs : list Event) : list (list Team) :=
  match evs with
  | [] => []
  | (LoadTeamsClick net | RefreshTeamsClick net) :: evs' =>
      match delivered net with
      | Some L => L :: deliveredLists evs'
      | None => deliveredLists evs'
      end
  | _ :: evs' => deliveredLists evs'
  end.

(** Every team the event delivers has a name. *)
Definition eventNamed (ev : Event) : Prop :=
  match ev with
  | LoadTeamsClick net | RefreshTeamsClick net =>
      match delivered net with
      | Some L => Forall hasName L
      | None => True
      end
  | _ => True
  end.

(** The request of the event, if it has one for teams, does not fail. *)
Definition eventDelivers (ev : Event) : Prop :=
  match ev with
  | LoadTeamsClick net | RefreshTeamsClick net => delivered net <> None
  | _ => True
  end.

(** The page shows the filtered list in the current view type. *)
Definition pageShowsFiltered (st : App) : Prop :=
  teamsContainer (uiManager st)
  = List.map (fun team => (team, currentView (teamManager st)))
      (filteredTeams (teamManager st)).

(** The counters show the sizes of the two lists. *)
Definition countersAgree (st : App) : Prop :=
  teamsCount (uiManager st)
  = (JsString.ofNat (length (filteredTeams (teamManager st))) ++ " equipos")%string /\
  totalTeams (uiManager st) = JsString.ofNat (length (teams (teamManager st))).

(** A roster is stored only together with its team. *)
Definition rosterHasTeam (st : App) : Prop :=
  currentPlayers (playerManager st) <> [] -> currentTeam (playerManager st) <> None.

(** What a request method of the ApiService does with each outcome: a
    status that is not ok throws whatever the body holds, an ok body
    without the list property yields the empty list, a failure is logged
    once under [label] and thrown on, and nothing but the console is
    written. *)
Definition apiContract {A} (method : FetchOutcome A -> M (list A))
    (label message : string) : Prop :=
  forall (net : FetchOutcome A) (st : App),
    let result := method net st in
    teamManager (snd result) = teamManager st /\
    playerManager (snd result) = playerManager st /\
    uiManager (snd result) = uiManager st /\
    match net with
    | Response true (Json (Some L)) => result = (Normal L, st)
    | Response true (Json None) => result = (Normal [], st)
    | Response true Malformed =>
        fst result = Throw SyntaxError /\
        console (snd result) = console st ++ [(label, SyntaxError)]
    | Response false _ =>
        fst result = Throw (HttpError message) /\
        console (snd result) = console st ++ [(label, HttpError message)]
    | NetworkError =>
        fst result = Throw FetchRejected /\
        console (snd result) = console st ++ [(label, FetchRejected)]
    end.

(** ** Strings *)

Section Strings.

Lemma prefix_empty (s : string) : String.prefix "" s = true.
Proof. destruct s; reflexivity. Qed.

Lemma includes_empty (s : string) : JsString.includes s "" = true.
Proof. destruct s; reflexivity. Qed.

Lemma includes_in_empty (term : string) :
  JsString.includes "" term = true -> term = "".
Proof. destruct term; simpl; [reflexivity | discriminate]. Qed.

Lemma truthy_false (s : string) : JsString.truthy s = false <-> s = "".
Proof. destruct s; simpl; split; congruence. Qed.

Lemma toLowerCase_empty (s : string) :
  JsString.toLowerCase s = "" -> s = "".
Proof. destruct s; simpl; [reflexivity | discriminate]. Qed.

Lemma normalize_empty : normalize "" = "".
Proof. reflexivity. Qed.

End Strings.

(** ** The filter callback *)

Section Callback.

Variable st : App.
Let term := searchTerm (teamManager st).

(** The guard only changes the answer for an empty field, which contains
    nothing but the empty term. *)
Lemma guardedIncludes_run (field : option string) :
  guardedIncludes field st =
    (Normal (JsString.truthyField field && fieldIncludes field term), st).
Proof.
  destruct field as [s|]; [destruct s|]; reflexivity.
Qed.

Lemma guarded_fieldIncludes (field : option string) :
  term <> "" ->
  JsString.truthyField field && fieldIncludes field term
  = fieldIncludes field term.
Proof.
  intros Hterm. destruct field as [s|]; [|reflexivity].
  destruct s; [|reflexivity]. simpl.
  destruct term; [congruence | reflexivity].
Qed.

Lemma teamMatches_named (team : Team) :
  hasName team ->
  teamMatches team st = (Normal (matchesTerm term team), st).
Proof.
  unfold hasName, teamMatches, matchesTerm. intros Hname.
  destruct (strTeam team) as [n|]; [|congruence].
  unfold bind; simpl. fold term.
  destruct (JsString.includes (JsString.toLowerCase n) term) eqn:Hn;
    [reflexivity|].
  assert (Hterm : term <> "").
  { intros E. rewrite E, includes_empty in Hn. discriminate. }
  rewrite guardedIncludes_run, (guarded_fieldIncludes _ Hterm).
  destruct (fieldIncludes (strLeague team) term); simpl; [reflexivity|].
  rewrite guardedIncludes_run, (guarded_fieldIncludes _ Hterm).
  reflexivity.
Qed.

Lemma teamMatches_unnamed (team : Team) :
  strTeam team = None -> teamMatches team st = (Throw TypeError, st).
Proof. unfold teamMatches. intros ->. reflexivity. Qed.

Lemma Array_filter_named (L : list Team) :
  Forall hasName L ->
  Array_filter teamMatches L st = (Normal (List.filter (matchesTerm term) L), st).
Proof.
  induction 1 as [|team L Hteam _ IH]; [reflexivity|].
  simpl. unfold bind at 1. rewrite (teamMatches_named _ Hteam).
  unfold bind at 1. rewrite IH. reflexivity.
Qed.

Lemma Array_filter_unnamed (L : list Team) :
  Exists (fun team => strTeam team = None) L ->
  Array_filter teamMatches L st = (Throw TypeError, st).
Proof.
  induction L as [|team L IH]; intros HE.
  - inversion HE.
  - simpl. unfold bind at 1.
    destruct (strTeam team) as [n|] eqn:Hn.
    + assert (Hrest : Exists (fun team => strTeam team = None) L).
      { inversion HE; subst; [congruence | assumption]. }
      rewrite teamMatches_named by (unfold hasName; congruence).
      unfold bind at 1. rewrite (IH Hrest). reflexivity.
    + rewrite (teamMatches_unnamed _ Hn). reflexivity.
Qed.

(** Every list is all names or has a team without one. *)
Lemma named_or_not (L : list Team) :
  Forall hasName L \/ Exists (fun team => strTeam team = None) L.
Proof.
  induction L as [|team L [IH|IH]].
  - left; constructor.
  - destruct (strTeam team) eqn:Hn.
    + left; constructor; [unfold hasName; congruence | assumption].
    + right; constructor; assumption.
  - right; apply Exists_cons_tl; assumption.
Qed.

End Callback.

(** ** What [filterTeams] computes *)

Section FilterTeams.

Variables (s : string) (st : App).
Let all := teams (teamManager st).

Lemma filter_matches_empty (L : list Team) :
  Forall hasName L -> List.filter (matchesTerm "") L = L.
Proof.
  induction 1 as [|team L Hteam _ IH]; [reflexivity|].
  simpl. rewrite IH. unfold matchesTerm, hasName in *.
  destruct (strTeam team); [|congruence].
  simpl. rewrite includes_empty. reflexivity.
Qed.

Lemma filterTeams_empty :
  normalize s = "" ->
  filterTeams s st = (Normal tt, afterFilter s all st).
Proof.
  intros Hs. unfold filterTeams, afterFilter, bind; simpl.
  fold (normalize s). rewrite Hs. reflexivity.
Qed.

Lemma filterTeams_nonempty_named :
  normalize s <> "" -> Forall hasName all ->
  filterTeams s st
  = (Normal tt, afterFilter s (List.filter (matchesTerm (normalize s)) all) st).
Proof.
  intros Hs Hall. unfold filterTeams. unfold bind at 1. simpl.
  unfold bind at 1. simpl. fold (normalize s) (termSet s st).
  destruct (JsString.truthy (normalize s)) eqn:Ht;
    [|apply truthy_false in Ht; congruence].
  simpl. unfold bind at 1. unfold bind at 1. simpl.
  unfold bind at 1. rewrite (Array_filter_named (termSet s st)) by exact Hall.
  reflexivity.
Qed.

Lemma filterTeams_named :
  Forall hasName all ->
  filterTeams s st
  = (Normal tt, afterFilter s (List.filter (matchesTerm (normalize s)) all) st).
Proof.
  intros Hall. destruct (string_dec (normalize s) "") as [Hs|Hs].
  - rewrite (filterTeams_empty Hs), Hs, (filter_matches_empty _ Hall).
    reflexivity.
  - apply filterTeams_nonempty_named; assumption.
Qed.

Lemma filterTeams_unnamed :
  normalize s <> "" -> Exists (fun team => strTeam team = None) all ->
  filterTeams s st = (Throw TypeError, termSet s st).
Proof.
  intros Hs Hex. unfold filterTeams. unfold bind at 1. simpl.
  unfold bind at 1. simpl. fold (normalize s) (termSet s st).
  destruct (JsString.truthy (normalize s)) eqn:Ht;
    [|apply truthy_false in Ht; congruence].
  simpl. unfold bind at 1. unfold bind at 1. simpl.
  unfold bind at 1. rewrite (Array_filter_unnamed (termSet s st)) by exact Hex.
  reflexivity.
Qed.

End FilterTeams.

(** ** The filter as a function of the list and the text *)

Section Filtered.

Variables (st : App) (L : list Team) (s : string).

Lemma filtered_empty : normalize s = "" -> filtered st L s = Normal L.
Proof.
  intros Hs. unfold filtered. rewrite (filterTeams_empty s _ Hs). reflexivity.
Qed.

Lemma filtered_named :
  Forall hasName L ->
  filtered st L s = Normal (List.filter (matchesTerm (normalize s)) L).
Proof.
  intros HL. unfold filtered. rewrite filterTeams_named by exact HL.
  reflexivity.
Qed.

Lemma filtered_unnamed :
  normalize s <> "" -> Exists (fun team => strTeam team = None) L ->
  filtered st L s = Throw TypeError.
Proof.
  intros Hs HL. unfold filtered.
  rewrite filterTeams_unnamed by assumption. reflexivity.
Qed.

(** The three cases cover every list and every text. *)
Lemma filtered_cases :
  (filtered st L s = Normal L /\ normalize s = "") \/
  (filtered st L s = Normal (List.filter (matchesTerm (normalize s)) L)
   /\ Forall hasName L) \/
  (filtered st L s = Throw TypeError /\ normalize s <> ""
   /\ Exists (fun team => strTeam team = None) L).
Proof.
  destruct (string_dec (normalize s) "") as [Hs|Hs].
  - left. split; [apply filtered_empty|]; assumption.
  - right. destruct (named_or_not L) as [HL|HL].
    + left. split; [apply filtered_named|]; assumption.
    + right. split; [apply filtered_unnamed|]; auto.
Qed.

End Filtered.

Section ListFilter.

Context {A : Type} (p : A -> bool).

Lemma filter_sublist_of (l : list A) : List.filter p l `sublist_of` l.
Proof.
  induction l as [|x l IH]; simpl; [constructor|].
  destruct (p x); [apply sublist_skip | apply sublist_cons]; exact IH.
Qed.

Lemma filter_twice (l : list A) :
  List.filter p (List.filter p l) = List.filter p l.
Proof.
  induction l as [|x l IH]; simpl; [reflexivity|].
  destruct (p x) eqn:Hx; simpl; [rewrite Hx, IH|]; auto.
Qed.

Lemma filter_Forall (P : A -> Prop) (l : list A) :
  Forall P l -> Forall P (List.filter p l).
Proof.
  induction 1 as [|x l Hx _ IH]; simpl; [constructor|].
  destruct (p x); [constructor|]; assumption.
Qed.

End ListFilter.

Lemma sublist_In {A} (k l : list A) :
  k `sublist_of` l -> forall x, In x k -> In x l.
Proof.
  induction 1 as [|y k l _ IH|y k l _ IH]; intros x Hx; simpl in *; intuition.
Qed.

(** ** The laws of the filter *)

(** C6: for every team list [L] and every filter string [s], the list
    that filterTeams keeps is a subsequence of [L]: its teams are teams of
    [L], in the order they have in [L].  The filter ends with an exception
    only for a non-blank text on a list with a team without a name. *)
Theorem filter_is_subsequence (st : App) (L : list Team) (s : string) :
  match filtered st L s with
  | Normal kept =>
      kept `sublist_of` L /\ (forall team, In team kept -> In team L)
  | Throw _ =>
      normalize s <> "" /\ Exists (fun team => strTeam team = None) L
  end.
Proof.
  destruct (filtered_cases st L s) as [[-> _]|[[-> _]|[-> H]]].
  - split; [reflexivity | auto].
  - split; [apply filter_sublist_of|].
    apply sublist_In, filter_sublist_of.
  - exact H.
Qed.

(** C7: for every team list [L], filtering with the empty string is the
    identity: the kept list is [L] itself, element for element. *)
Theorem filter_empty_identity (st : App) (L : list Team) :
  filtered st L "" = Normal L.
Proof. apply filtered_empty, normalize_empty. Qed.

(** C8: for every team list [L] and every filter string [s], filtering is
    idempotent: filtering the kept list with [s] again keeps all of it.
    (When the first filter ends with an exception there is no list to
    filter again; that happens only for a non-blank text on a list with a
    team without a name.) *)
Theorem filter_idempotent (st : App) (L : list Team) (s : string) :
  match filtered st L s with
  | Normal kept => filtered st kept s = Normal kept
  | Throw _ =>
      normalize s <> "" /\ Exists (fun team => strTeam team = None) L
  end.
Proof.
  destruct (filtered_cases st L s) as [[E Hs]|[[E HL]|[-> H]]].
  - rewrite E. exact E.
  - rewrite E, filtered_named by (apply filter_Forall; exact HL).
    rewrite filter_twice. reflexivity.
  - exact H.
Qed.

(** C10: on a team list in which every team has a name, filterTeams ends
    normally for every search string, whether or not the league and the
    stadium of a team are present: the callback on a named team returns
    whether one of the fields that are present contains the term, so a
    team with neither league nor stadium is matched on its name alone.
    The condition on the name is needed: for a non-blank search string
    and a list with a team without a name, filterTeams throws a
    TypeError. *)
Theorem filterTeams_never_raises :
  (forall (st : App) (s : string),
      Forall hasName (teams (teamManager st)) ->
      fst (filterTeams s st) = Normal tt) /\
  (forall (st : App) (team : Team),
      hasName team ->
      teamMatches team st
      = (Normal (matchesTerm (searchTerm (teamManager st)) team), st)) /\
  (forall (term : string) (team : Team),
      strLeague team = None -> strStadium team = None ->
      matchesTerm term team = fieldIncludes (strTeam team) term) /\
  (forall (st : App) (s : string),
      normalize s <> "" ->
      Exists (fun team => strTeam team = None) (teams (teamManager st)) ->
      fst (filterTeams s st) = Throw TypeError).
Proof.
  repeat split.
  - intros st s Hall. rewrite filterTeams_named by exact Hall. reflexivity.
  - intros st team Hteam. apply teamMatches_named, Hteam.
  - intros term team Hl Hs. unfold matchesTerm. rewrite Hl, Hs. simpl.
    rewrite !orb_false_r. reflexivity.
  - intros st s Hs Hex. rewrite filterTeams_unnamed by assumption. reflexivity.
Qed.

Lemma filterTeams_never_raises_witness :
  Forall hasName [Sample.realBetis; Sample.named "Sevilla FC"] /\
  fst (filterTeams "Sevilla"
         (withTeams [Sample.realBetis; Sample.named "Sevilla FC"]
            (newApp Sample.page))) = Normal tt /\
  fst (filterTeams "Sevilla"
         (withTeams [Sample.realBetis; Sample.nameless] (newApp Sample.page)))
  = Throw TypeError.
Proof.
  assert (H : Forall hasName [Sample.realBetis; Sample.named "Sevilla FC"]).
  { constructor; [discriminate|]. constructor; [discriminate | constructor]. }
  split; [exact H|]. split.
  - exact (proj1 filterTeams_never_raises
             (withTeams [Sample.realBetis; Sample.named "Sevilla FC"]
                (newApp Sample.page)) "Sevilla" H).
  - refine (proj2 (proj2 (proj2 filterTeams_never_raises))
              (withTeams [Sample.realBetis; Sample.nameless] (newApp Sample.page))
              "Sevilla" _ _).
    + vm_compute. discriminate.
    + apply Exists_cons_tl, Exists_cons_hd. reflexivity.
Defined.

(** ** What the loads compute *)

Section Requests.

Context {A : Type} (label message : string) (net : FetchOutcome A) (st : App).

Lemma request_delivered (L : list A) :
  delivered net = Some L -> request label message net st = (Normal L, st).
Proof.
  destruct net as [|[] [|[l|]]]; simpl; intros E; inversion E; reflexivity.
Qed.

Lemma request_failed :
  delivered net = None ->
  request label message net st
  = (Throw (failureOf message net),
     snd (consoleError label (failureOf message net) st)).
Proof.
  destruct net as [|[] [|[l|]]]; simpl; intros E; inversion E; reflexivity.
Qed.

End Requests.

Section LoadTeams.

Variables (net : FetchOutcome Team) (st : App).

Lemma loadTeams_absent (country : option string) :
  given country = false -> loadTeams net country st = (Normal tt, st).
Proof. destruct country as [[|c s]|]; simpl; [reflexivity | discriminate | reflexivity]. Qed.

Lemma loadTeams_delivered (country : string) (L : list Team) :
  given (Some country) = true -> delivered net = Some L ->
  loadTeams net (Some country) st = (Normal tt, teamsLoaded country L st).
Proof.
  simpl. intros Hc HL. unfold loadTeams. rewrite Hc. simpl.
  unfold bind at 1 2 3. simpl.
  unfold tryCatchFinally, tryFinally, tryCatch, getTeamsByCountry.
  unfold bind at 1. rewrite (request_delivered _ _ _ _ _ HL).
  reflexivity.
Qed.

Lemma loadTeams_failed (country : string) :
  given (Some country) = true -> delivered net = None ->
  loadTeams net (Some country) st
  = (Normal tt,
     teamsFailed country (failureOf "Error al cargar equipos" net) st).
Proof.
  simpl. intros Hc HL. unfold loadTeams. rewrite Hc. simpl.
  unfold bind at 1 2 3. simpl.
  unfold tryCatchFinally, tryFinally, tryCatch, getTeamsByCountry.
  unfold bind at 1. rewrite (request_failed _ _ _ _ HL).
  reflexivity.
Qed.

End LoadTeams.

Section LoadPlayers.

Variables (net : FetchOutcome Player) (st : App).
Variables teamName teamBadge teamLeague : option string.

Lemma loadPlayers_absent (teamId : option string) :
  given teamId = false ->
  loadPlayers net teamId teamName teamBadge teamLeague st = (Normal tt, st).
Proof. destruct teamId as [[|c s]|]; simpl; [reflexivity | discriminate | reflexivity]. Qed.

Lemma loadPlayers_delivered (teamId : string) (players : list Player) :
  given (Some teamId) = true -> delivered net = Some players ->
  loadPlayers net (Some teamId) teamName teamBadge teamLeague st
  = (Normal tt, playersLoaded players teamName teamBadge teamLeague st).
Proof.
  simpl. intros Hc HL. unfold loadPlayers. rewrite Hc. simpl.
  unfold bind at 1. simpl.
  unfold tryCatchFinally, tryFinally, tryCatch, getPlayersByTeam.
  unfold bind at 1. rewrite (request_delivered _ _ _ _ _ HL).
  reflexivity.
Qed.

Lemma loadPlayers_failed (teamId : string) :
  given (Some teamId) = true -> delivered net = None ->
  loadPlayers net (Some teamId) teamName teamBadge teamLeague st
  = (Normal tt,
     playersFailed (failureOf "Error al cargar jugadores" net)
       teamName teamBadge teamLeague st).
Proof.
  simpl. intros Hc HL. unfold loadPlayers. rewrite Hc. simpl.
  unfold bind at 1. simpl.
  unfold tryCatchFinally, tryFinally, tryCatch, getPlayersByTeam.
  unfold bind at 1. rewrite (request_failed _ _ _ _ HL).
  reflexivity.
Qed.

End LoadPlayers.

(** ** loadTeams *)

(** C2, as the specification states it, fails: a load that fails after a
    load that succeeded leaves the two teams in [this.teams]. *)
Lemma failed_load_keeps_teams :
  delivered (Sample.http500 : FetchOutcome Team) = None /\
  teams (teamManager
           (snd (loadTeams Sample.http500 (Some "Spain") Sample.spainLoaded)))
  = [Sample.realBetis; Sample.sevillaFC] /\
  teams (teamManager
           (snd (loadTeams Sample.http500 (Some "Spain") Sample.spainLoaded)))
  <> [].
Proof. repeat split; try reflexivity. vm_compute. discriminate. Qed.

(** C2 (amended): for every non-empty country, when the request for the
    teams fails (no response, a status that is not ok, or a body that does
    not decode), loadTeams ends normally, leaves [teams], [filteredTeams]
    and [searchTerm] as they were, records the country, renders the empty
    team list, appends the error notification and hides the loading
    overlay. *)
Theorem loadTeams_fails_soft (st : App) (net : FetchOutcome Team)
    (country : string) :
  given (Some country) = true -> delivered net = None ->
  let st' := snd (loadTeams net (Some country) st) in
  fst (loadTeams net (Some country) st) = Normal tt /\
  teams (teamManager st') = teams (teamManager st) /\
  filteredTeams (teamManager st') = filteredTeams (teamManager st) /\
  searchTerm (teamManager st') = searchTerm (teamManager st) /\
  currentCountry (teamManager st') = country /\
  teamsContainer (uiManager st') = [] /\
  notification (uiManager st')
  = notification (uiManager st) ++ [("Error al cargar los equipos", NError)] /\
  loadingOverlay (uiManager st') = false.
Proof.
  intros Hc Hnet. rewrite (loadTeams_failed _ _ _ Hc Hnet).
  repeat split; reflexivity.
Qed.

Lemma loadTeams_fails_soft_witness :
  fst (loadTeams Sample.http500 (Some "Spain") Sample.spainLoaded) = Normal tt /\
  teams (teamManager
           (snd (loadTeams Sample.http500 (Some "Spain") Sample.spainLoaded)))
  = teams (teamManager Sample.spainLoaded).
Proof.
  pose proof (loadTeams_fails_soft Sample.spainLoaded Sample.http500 "Spain"
                eq_refl eq_refl) as H.
  split; [apply H | apply (proj1 (proj2 H))].
Defined.

(** C3, as the specification states it, fails: a load that succeeds while
    a roster is open leaves the roster in the PlayerManager, and a load
    that fails leaves the filter text as it was. *)
Lemma loadTeams_keeps_roster_and_term :
  currentPlayers
    (playerManager
       (snd (loadTeams (Sample.success [Sample.sevillaFC]) (Some "Spain")
               Sample.rosterOpen)))
  = [Sample.isco] /\
  currentTeam
    (playerManager
       (snd (loadTeams (Sample.success [Sample.sevillaFC]) (Some "Spain")
               Sample.rosterOpen)))
  <> None /\
  searchTerm
    (teamManager
       (snd (loadTeams Sample.http500 (Some "Spain")
               (snd (filterTeams "sevilla" Sample.spainLoaded)))))
  = "sevilla".
Proof. repeat split; try reflexivity. vm_compute. discriminate. Qed.

(** C3 (amended): for an empty or absent country loadTeams changes no
    state.  For a non-empty country, a load that succeeds stores the
    delivered list, resets the filter text to the empty string and hides
    the players section of the page; a load that fails leaves the filter
    text and the players section as they were.  Neither touches the roster
    held by the PlayerManager. *)
Theorem loadTeams_resets (st : App) (net : FetchOutcome Team)
    (country : option string) :
  (given country = false -> loadTeams net country st = (Normal tt, st)) /\
  (forall L : list Team,
      given country = true -> delivered net = Some L ->
      let st' := snd (loadTeams net country st) in
      searchTerm (teamManager st') = "" /\
      teams (teamManager st') = L /\
      filteredTeams (teamManager st') = L /\
      playersSection (uiManager st') = false /\
      teamInfo (uiManager st') = false /\
      emptyPlayers (uiManager st') = false /\
      playerManager st' = playerManager st) /\
  (given country = true -> delivered net = None ->
   let st' := snd (loadTeams net country st) in
   searchTerm (teamManager st') = searchTerm (teamManager st) /\
   playersSection (uiManager st') = playersSection (uiManager st) /\
   teamInfo (uiManager st') = teamInfo (uiManager st) /\
   emptyPlayers (uiManager st') = emptyPlayers (uiManager st) /\
   playerManager st' = playerManager st).
Proof.
  split; [apply loadTeams_absent|].
  destruct country as [country|]; [|split; [intros L|]; discriminate].
  split.
  - intros L Hc Hnet. rewrite (loadTeams_delivered _ _ _ _ Hc Hnet).
    repeat split; try reflexivity.
    all: simpl; destruct L; reflexivity.
  - intros Hc Hnet. rewrite (loadTeams_failed _ _ _ Hc Hnet).
    repeat split; reflexivity.
Qed.

Lemma loadTeams_resets_witness :
  searchTerm
    (teamManager
       (snd (loadTeams (Sample.success [Sample.sevillaFC]) (Some "Spain")
               (snd (filterTeams "betis" Sample.rosterOpen))))) = "" /\
  loadTeams Sample.http500 (Some "") Sample.rosterOpen
  = (Normal tt, Sample.rosterOpen) /\
  playerManager
    (snd (loadTeams Sample.http500 (Some "Spain") Sample.rosterOpen))
  = playerManager Sample.rosterOpen.
Proof.
  split; [|split].
  - apply (proj1 (proj2 (loadTeams_resets
             (snd (filterTeams "betis" Sample.rosterOpen))
             (Sample.success [Sample.sevillaFC]) (Some "Spain")))
             [Sample.sevillaFC] eq_refl eq_refl).
  - apply (proj1 (loadTeams_resets Sample.rosterOpen Sample.http500 (Some ""))
             eq_refl).
  - apply (proj2 (proj2 (loadTeams_resets Sample.rosterOpen Sample.http500
                           (Some "Spain"))) eq_refl eq_refl).
Defined.

(** ** loadPlayers and hidePlayers *)

(** C4, as the specification states it, fails: a request for a roster that
    fails while another roster is open leaves that roster in
    [this.currentPlayers]. *)
Lemma failed_roster_keeps_players :
  delivered (Sample.http500 : FetchOutcome Player) = None /\
  currentPlayers
    (playerManager
       (snd (loadPlayers Sample.http500 (Some "133724") (Some "Sevilla FC")
               None (Some "Spanish La Liga") Sample.rosterOpen)))
  = [Sample.isco] /\
  currentPlayers
    (playerManager
       (snd (loadPlayers Sample.http500 (Some "133724") (Some "Sevilla FC")
               None (Some "Spanish La Liga") Sample.rosterOpen)))
  <> [].
Proof. repeat split; try reflexivity. vm_compute. discriminate. Qed.

(** C4 (amended): loadPlayers changes no state when the team id is empty
    or absent.  Otherwise it ends normally with the loading overlay
    hidden, and: when the request delivers a list (the empty one
    included) it stores that list and the team in [currentPlayers] and
    [currentTeam], renders them and appends a success notification, an
    empty list showing the empty-state element; when the request fails it
    leaves [currentPlayers] and [currentTeam] as they were, renders the
    empty roster with the empty-state element and appends the error
    notification. *)
Theorem loadPlayers_effect (st : App) (net : FetchOutcome Player)
    (teamId teamName teamBadge teamLeague : option string) :
  let result := loadPlayers net teamId teamName teamBadge teamLeague st in
  let st' := snd result in
  (given teamId = false -> result = (Normal tt, st)) /\
  (forall players : list Player,
      given teamId = true -> delivered net = Some players ->
      fst result = Normal tt /\
      currentPlayers (playerManager st') = players /\
      currentTeam (playerManager st')
      = Some {| name := teamName; badge := teamBadge; league := teamLeague |} /\
      playersContainer (uiManager st') = players /\
      emptyPlayers (uiManager st') = (if players is [] then true else false) /\
      notification (uiManager st')
      = notification (uiManager st)
        ++ [((JsString.ofNat (length players) ++ " jugadores cargados")%string,
             NSuccess)] /\
      loadingOverlay (uiManager st') = false) /\
  (given teamId = true -> delivered net = None ->
   fst result = Normal tt /\
   playerManager st' = playerManager st /\
   playersContainer (uiManager st') = [] /\
   emptyPlayers (uiManager st') = true /\
   notification (uiManager st')
   = notification (uiManager st) ++ [("Error al cargar los jugadores", NError)] /\
   loadingOverlay (uiManager st') = false).
Proof.
  cbv zeta. split; [apply loadPlayers_absent|].
  destruct teamId as [teamId|]; [|split; [intros players|]; discriminate].
  split.
  - intros players Hid Hnet.
    rewrite (loadPlayers_delivered _ _ _ _ _ _ _ Hid Hnet).
    repeat split; try reflexivity.
    all: simpl; destruct players; reflexivity.
  - intros Hid Hnet. rewrite (loadPlayers_failed _ _ _ _ _ _ Hid Hnet).
    repeat split; reflexivity.
Qed.

Lemma loadPlayers_effect_witness :
  currentPlayers
    (playerManager
       (snd (loadPlayers (Sample.success []) (Some "134301") (Some "Sevilla FC")
               None None Sample.rosterOpen))) = [] /\
  emptyPlayers
    (uiManager
       (snd (loadPlayers (Sample.success []) (Some "134301") (Some "Sevilla FC")
               None None Sample.rosterOpen))) = true /\
  playerManager
    (snd (loadPlayers Sample.http500 (Some "134301") (Some "Sevilla FC")
            None None Sample.rosterOpen))
  = playerManager Sample.rosterOpen /\
  loadPlayers Sample.http500 None (Some "Sevilla FC") None None Sample.rosterOpen
  = (Normal tt, Sample.rosterOpen).
Proof.
  pose proof (proj1 (proj2 (loadPlayers_effect Sample.rosterOpen
                (Sample.success []) (Some "134301") (Some "Sevilla FC")
                None None)) [] eq_refl eq_refl) as Hok.
  pose proof (proj2 (proj2 (loadPlayers_effect Sample.rosterOpen
                Sample.http500 (Some "134301") (Some "Sevilla FC")
                None None)) eq_refl eq_refl) as Hfail.
  pose proof (proj1 (loadPlayers_effect Sample.rosterOpen
                Sample.http500 None (Some "Sevilla FC") None None) eq_refl)
    as Hnone.
  split; [exact (proj1 (proj2 Hok))|].
  split; [exact (proj1 (proj2 (proj2 (proj2 (proj2 Hok))))) |].
  split; [exact (proj1 (proj2 Hfail)) | exact Hnone].
Defined.

(** C9: from any state, hidePlayers ends normally with [currentPlayers]
    empty and [currentTeam] cleared, and with the players section hidden;
    a second call leaves the state exactly as the first left it. *)
Theorem hidePlayers_idempotent (st : App) :
  let st' := snd (hidePlayers st) in
  fst (hidePlayers st) = Normal tt /\
  currentPlayers (playerManager st') = [] /\
  currentTeam (playerManager st') = None /\
  playersSection (uiManager st') = false /\
  teamManager st' = teamManager st /\
  hidePlayers st' = (Normal tt, st').
Proof. repeat split; reflexivity. Qed.

(** ** switchView *)

(** C5, as the specification states it, fails: on the fresh application,
    whose filtered list is empty, switching to the list view changes
    [currentView]. *)
Lemma switchView_changes_empty_state :
  filteredTeams (teamManager (newApp Sample.page)) = [] /\
  currentView (teamManager (newApp Sample.page)) = GridView /\
  currentView (teamManager (snd (switchView ListView (newApp Sample.page))))
  = ListView /\
  snd (switchView ListView (newApp Sample.page)) <> newApp Sample.page.
Proof. repeat split; try reflexivity. vm_compute. discriminate. Qed.

(** C5 (amended): switchView ends normally and always stores the view
    type in [currentView]; it changes nothing else of the two managers.
    When the filtered list is empty the page is left as it is; otherwise
    the filtered list is rendered in the new view type and the view
    buttons are set to it. *)
Theorem switchView_effect (st : App) (viewType : View) :
  let st' := snd (switchView viewType st) in
  let shown := filteredTeams (teamManager st) in
  fst (switchView viewType st) = Normal tt /\
  teamManager st' = set_currentView viewType (teamManager st) /\
  playerManager st' = playerManager st /\
  console st' = console st /\
  (shown = [] -> uiManager st' = uiManager st) /\
  (shown <> [] ->
   uiManager st'
   = setViewButtons viewType (displayTeams shown viewType (uiManager st))).
Proof.
  cbv zeta. unfold switchView, bind. simpl.
  destruct (filteredTeams (teamManager st)) as [|team rest]; simpl;
    repeat split; try reflexivity; congruence.
Qed.

Lemma switchView_effect_witness :
  uiManager (snd (switchView ListView (newApp Sample.page))) = Sample.page /\
  teamsContainer (uiManager (snd (switchView ListView Sample.spainLoaded)))
  = [(Sample.realBetis, ListView); (Sample.sevillaFC, ListView)].
Proof.
  split.
  - apply (proj1 (proj2 (proj2 (proj2 (proj2
             (switchView_effect (newApp Sample.page) ListView)))))).
    reflexivity.
  - rewrite (proj2 (proj2 (proj2 (proj2 (proj2
               (switchView_effect Sample.spainLoaded ListView)))))).
    + reflexivity.
    + discriminate.
Defined.

(** ** The filtered view over sequences of operations *)

Section Invariant.

Lemma viewInvariant_new (page : UIManager) : viewInvariant (newApp page).
Proof. split; [constructor | reflexivity]. Qed.

Lemma viewInvariant_loadTeams (st : App) (net : FetchOutcome Team)
    (country : option string) :
  opNamed (OpLoadTeams net country) -> viewInvariant st ->
  viewInvariant (snd (loadTeams net country st)).
Proof.
  intros Hop Hinv. destruct (given country) eqn:Hc.
  - destruct country as [country|]; [|discriminate].
    simpl in Hop. destruct (delivered net) as [L|] eqn:Hnet.
    + rewrite (loadTeams_delivered _ _ _ _ Hc Hnet).
      split; [exact Hop|]. unfold codeView. simpl.
      symmetry. apply filter_matches_empty, Hop.
    + rewrite (loadTeams_failed _ _ _ Hc Hnet). exact Hinv.
  - rewrite (loadTeams_absent _ _ _ Hc). exact Hinv.
Qed.

Lemma viewInvariant_filterTeams (st : App) (text : string) :
  viewInvariant st -> viewInvariant (snd (filterTeams text st)).
Proof.
  intros [Hall _]. rewrite (filterTeams_named _ _ Hall).
  split; [exact Hall | reflexivity].
Qed.

Lemma viewInvariant_step (st : App) (op : Op) :
  opNamed op -> viewInvariant st -> viewInvariant (step st op).
Proof.
  destruct op as [net country|text]; intros Hop Hinv.
  - apply viewInvariant_loadTeams; assumption.
  - apply viewInvariant_filterTeams; assumption.
Qed.

Lemma viewInvariant_runOps (ops : list Op) :
  Forall opNamed ops ->
  forall st, viewInvariant st -> viewInvariant (runOps ops st).
Proof.
  induction 1 as [|op ops Hop _ IH]; intros st Hinv; [exact Hinv|].
  apply IH, viewInvariant_step; assumption.
Qed.

End Invariant.

(** C1, as the specification states it, fails: the stadium location is
    not one of the fields searched.  Real Betis, whose stadium location is
    "Sevilla", is dropped by the text "sevilla". *)
Lemma stadium_location_not_searched :
  let st :=
    runOps [OpLoadTeams (Sample.success [Sample.realBetis; Sample.sevillaFC])
              (Some "Spain");
            OpFilterTeams "sevilla"] (newApp Sample.page) in
  filteredTeams (teamManager st) = [Sample.sevillaFC] /\
  specView st = [Sample.realBetis; Sample.sevillaFC] /\
  filteredTeams (teamManager st) <> specView st.
Proof.
  cbv zeta. split; [reflexivity|]. split; [reflexivity|].
  vm_compute. discriminate.
Qed.

(** A team without a name breaks the view as well: the filter throws
    after the term is stored and before the filtered list is. *)
Lemma nameless_team_breaks_view :
  let st :=
    runOps [OpLoadTeams (Sample.success [Sample.nameless; Sample.sevillaFC])
              (Some "Spain");
            OpFilterTeams "betis"] (newApp Sample.page) in
  searchTerm (teamManager st) = "betis" /\
  filteredTeams (teamManager st) = [Sample.nameless; Sample.sevillaFC] /\
  codeView st = [].
Proof. cbv zeta. split; [reflexivity|]. split; reflexivity. Qed.

(** C1 (amended): after any sequence of loadTeams and filterTeams
    operations on a fresh application in which every delivered team has a
    name, the filtered list is exactly the subsequence of the loaded list
    whose name, league or stadium ([strStadium]) contains, in lower case,
    the stored term; filterTeams stores the trimmed lower-case form of its
    text as that term.  In particular, after "Spain" delivered the teams
    named "Real Betis" and "Sevilla FC", filterTeams("sevilla") leaves
    exactly the team named "Sevilla FC". *)
Theorem filtered_view_invariant :
  (forall (page : UIManager) (ops : list Op),
      Forall opNamed ops ->
      let st := runOps ops (newApp page) in
      filteredTeams (teamManager st)
      = List.filter (matchesTerm (searchTerm (teamManager st)))
          (teams (teamManager st)) /\
      filteredTeams (teamManager st) `sublist_of` teams (teamManager st)) /\
  (forall (st : App) (text : string),
      searchTerm (teamManager (step st (OpFilterTeams text)))
      = JsString.trim (JsString.toLowerCase text)) /\
  (forall page : UIManager,
      filteredTeams
        (teamManager
           (runOps [OpLoadTeams
                      (Sample.success
                         [Sample.named "Real Betis"; Sample.named "Sevilla FC"])
                      (Some "Spain");
                    OpFilterTeams "sevilla"] (newApp page)))
      = [Sample.named "Sevilla FC"]).
Proof.
  split; [|split].
  - intros page ops Hops st.
    destruct (viewInvariant_runOps ops Hops _ (viewInvariant_new page))
      as [_ Hview].
    fold st in Hview. split; [exact Hview|].
    rewrite Hview. apply filter_sublist_of.
  - intros st text. simpl.
    destruct (string_dec (normalize text) "") as [Hs|Hs].
    + rewrite (filterTeams_empty _ _ Hs). reflexivity.
    + destruct (named_or_not (teams (teamManager st))) as [Hall|Hex].
      * rewrite (filterTeams_named _ _ Hall). reflexivity.
      * rewrite (filterTeams_unnamed _ _ Hs Hex). reflexivity.
  - intros page. reflexivity.
Qed.

Lemma filtered_view_invariant_witness :
  let st :=
    runOps [OpLoadTeams (Sample.success [Sample.realBetis; Sample.sevillaFC])
              (Some "Spain");
            OpFilterTeams " Villamarin";
            OpLoadTeams Sample.http500 (Some "Spain")] (newApp Sample.page) in
  filteredTeams (teamManager st)
  = List.filter (matchesTerm (searchTerm (teamManager st)))
      (teams (teamManager st)) /\
  filteredTeams (teamManager st) `sublist_of` teams (teamManager st).
Proof.
  apply (proj1 filtered_view_invariant Sample.page).
  constructor; [simpl|].
  - constructor; [discriminate|]. constructor; [discriminate | constructor].
  - constructor; [exact I|]. constructor; [exact I | constructor].
Defined.

(** * Further properties of the code *)

(** ** The listeners in closed form *)

Lemma forallb_namedB (L : list Team) :
  forallb namedB L = true <-> Forall hasName L.
Proof.
  induction L as [|team L IH]; simpl.
  - split; [constructor | reflexivity].
  - unfold namedB at 1, hasName at 1. rewrite andb_true_iff, IH.
    split.
    + intros [Hn HL]. constructor; [|exact HL].
      destruct (strTeam team); [discriminate | discriminate].
    + intros H. inversion H as [|? ? Hn HL]; subst. split; [|exact HL].
      unfold hasName in Hn. destruct (strTeam team); [reflexivity | congruence].
Qed.

Lemma forallb_namedB_false (L : list Team) :
  forallb namedB L = false -> Exists (fun team => strTeam team = None) L.
Proof.
  intros H. destruct (named_or_not L) as [HL|HL]; [|exact HL].
  apply forallb_namedB in HL. congruence.
Qed.

Lemma switchView_run (viewType : View) (st : App) :
  switchView viewType st = (Normal tt, viewSwitched viewType st).
Proof.
  unfold switchView, viewSwitched, bind. simpl.
  destruct (filteredTeams (teamManager st)); reflexivity.
Qed.

Lemma hidePlayers_run (st : App) : hidePlayers st = (Normal tt, playersHidden st).
Proof. reflexivity. Qed.

Lemma clearTeams_run (st : App) : clearTeams st = (Normal tt, teamsCleared st).
Proof. reflexivity. Qed.

Lemma loadTeams_run (net : FetchOutcome Team) (country : string) (st : App) :
  loadTeams net (Some country) st = (Normal tt, teamsRequested net country st).
Proof.
  unfold teamsRequested. destruct (JsString.truthy country) eqn:Hc.
  - destruct (delivered net) as [L|] eqn:Hnet.
    + apply loadTeams_delivered; assumption.
    + apply loadTeams_failed; assumption.
  - apply loadTeams_absent. exact Hc.
Qed.

Lemma loadPlayers_run (net : FetchOutcome Player)
    (teamId teamName teamBadge teamLeague : option string) (st : App) :
  loadPlayers net teamId teamName teamBadge teamLeague st
  = (Normal tt, playersRequested net teamId teamName teamBadge teamLeague st).
Proof.
  unfold playersRequested. destruct (given teamId) eqn:Hid.
  - destruct teamId as [teamId|]; [|discriminate].
    destruct (delivered net) as [players|] eqn:Hnet.
    + apply loadPlayers_delivered; assumption.
    + apply loadPlayers_failed; assumption.
  - apply loadPlayers_absent. exact Hid.
Qed.

Lemma filterTeams_run (text : string) (st : App) :
  snd (filterTeams text st) = teamsFiltered text st.
Proof.
  unfold teamsFiltered.
  destruct (JsString.truthy (normalize text)) eqn:Ht.
  - assert (Hs : normalize text <> "").
    { intros E. rewrite E in Ht. discriminate. }
    destruct (forallb namedB (teams (teamManager st))) eqn:Hn.
    + apply forallb_namedB in Hn.
      rewrite (filterTeams_named _ _ Hn). reflexivity.
    + apply forallb_namedB_false in Hn.
      rewrite (filterTeams_unnamed _ _ Hs Hn). reflexivity.
  - apply truthy_false in Ht. rewrite (filterTeams_empty _ _ Ht). reflexivity.
Qed.

Lemma dispatch_dispatched (st : App) (ev : Event) :
  dispatch st ev = dispatched st ev.
Proof.
  unfold dispatch.
  destruct ev as [v|net|text| | |net| |net id nm bd lg]; cbn [handle dispatched].
  - reflexivity.
  - unfold bind, gets; cbv beta iota.
    destruct (JsString.truthy (countrySelect (uiManager st))) eqn:Hc.
    + rewrite loadTeams_run. reflexivity.
    + unfold teamsRequested. rewrite Hc. reflexivity.
  - apply filterTeams_run.
  - rewrite switchView_run. reflexivity.
  - rewrite switchView_run. reflexivity.
  - unfold bind, gets; cbv beta iota.
    destruct (JsString.truthy (countrySelect (uiManager st))) eqn:Hc.
    + rewrite loadTeams_run. reflexivity.
    + unfold teamsRequested. rewrite Hc. reflexivity.
  - reflexivity.
  - destruct (JsString.truthyField id) eqn:Hid.
    + rewrite loadPlayers_run. reflexivity.
    + unfold playersRequested, given. rewrite Hid. reflexivity.
Qed.

(** ** Rendering without case distinctions *)

Lemma displayTeams_map (ts : list Team) (viewType : View) (ui : UIManager) :
  displayTeams ts viewType ui
  = set_teamsContainer (List.map (fun team => (team, viewType)) ts) ui.
Proof. destruct ts; reflexivity. Qed.

Lemma displayPlayers_flat (players : list Player)
    (teamName teamBadge teamLeague country : option string) (ui : UIManager) :
  displayPlayers players teamName teamBadge teamLeague country ui
  = ui |> set_teamInfo true
       |> set_teamBadge (orDefault teamBadge placeholderTeam)
       |> set_teamName teamName
       |> set_teamDetails (orDefault teamLeague "Sin liga", country)
       |> set_playersTitle teamName
       |> set_emptyPlayers (if players is [] then true else false)
       |> set_playersContainer players
       |> set_playersSection
            (if players is [] then playersSection ui else true).
Proof. destruct players; reflexivity. Qed.

(** Unfolds the closed forms down to field assignments. *)
Ltac flatten_state :=
  unfold dispatched, teamsRequested, playersRequested, teamsFiltered,
    viewSwitched, playersHidden, teamsCleared, teamsLoaded, teamsFailed,
    playersLoaded, playersFailed, afterFilter, termSet, given in *;
  rewrite ?displayTeams_map, ?displayPlayers_flat in *.

(** ** Invariants of the event loop *)

Section EventLoop.

Variable P : App -> Prop.
Variable Q : Event -> Prop.
Hypothesis preserved : forall st ev, Q ev -> P st -> P (dispatched st ev).

Lemma runEvents_preserves (evs : list Event) :
  Forall Q evs -> forall st, P st -> P (runEvents evs st).
Proof.
  induction 1 as [|ev evs Hev _ IH]; intros st Hst; [exact Hst|].
  simpl. apply IH. rewrite dispatch_dispatched. apply preserved; assumption.
Qed.

End EventLoop.

Lemma Forall_always (evs : list Event) : Forall (fun _ => True) evs.
Proof. induction evs; constructor; auto. Qed.

Lemma runEvents_snoc (evs : list Event) (ev : Event) (st : App) :
  runEvents (evs ++ [ev]) st = dispatched (runEvents evs st) ev.
Proof.
  unfold runEvents. rewrite fold_left_app. simpl. apply dispatch_dispatched.
Qed.

Lemma sublist_preserved (st : App) (ev : Event) :
  filteredTeams (teamManager st) `sublist_of` teams (teamManager st) ->
  filteredTeams (teamManager (dispatched st ev))
  `sublist_of` teams (teamManager (dispatched st ev)).
Proof.
  intros H.
  destruct ev as [v|net|text| | |net| |net id nm bd lg]; flatten_state; simpl;
    try exact H.
  - destruct (JsString.truthy _); [|exact H].
    destruct (delivered net); simpl; [reflexivity | exact H].
  - destruct (JsString.truthy _); [destruct (forallb _ _)|]; simpl.
    + apply filter_sublist_of.
    + exact H.
    + reflexivity.
  - destruct (JsString.truthy _); [|exact H].
    destruct (delivered net); simpl; [reflexivity | exact H].
  - destruct (JsString.truthyField id); [|exact H].
    destruct (delivered net); exact H.
Qed.

(** X1: whatever the user does, and whatever the requests deliver (teams
    without a name and escaping TypeErrors included), the filtered list of
    the TeamManager is a subsequence of its loaded list. *)
Theorem filteredTeams_always_sublist (page : UIManager) (evs : list Event) :
  filteredTeams (teamManager (runEvents evs (newApp page)))
  `sublist_of` teams (teamManager (runEvents evs (newApp page))).
Proof.
  apply (runEvents_preserves
           (fun st => filteredTeams (teamManager st) `sublist_of` teams (teamManager st))
           (fun _ => True)).
  - intros st ev _. apply sublist_preserved.
  - apply Forall_always.
  - reflexivity.
Qed.

(** Splits the state after an event into the cases of its listener. *)
Ltac event_cases ev :=
  destruct ev as [v|net|text| | |net| |net id nm bd lg]; flatten_state; simpl;
  repeat match goal with
    | |- context [if JsString.truthy ?x then _ else _] =>
        destruct (JsString.truthy x) eqn:?
    | |- context [if JsString.truthyField ?x then _ else _] =>
        destruct (JsString.truthyField x) eqn:?
    | |- context [if forallb ?f ?l then _ else _] =>
        destruct (forallb f l) eqn:?
    | |- context [match delivered ?n with _ => _ end] =>
        destruct (delivered n) eqn:?
    | |- context [match filteredTeams ?t with _ => _ end] =>
        destruct (filteredTeams t)
    end;
  rewrite ?displayTeams_map, ?displayPlayers_flat; simpl.

Lemma roster_preserved (st : App) (ev : Event) :
  rosterHasTeam st -> rosterHasTeam (dispatched st ev).
Proof.
  unfold rosterHasTeam. event_cases ev; intros H; try exact H; congruence.
Qed.

(** X2: whatever the user does and whatever the requests deliver, the
    PlayerManager holds a non-empty roster only together with the team it
    belongs to: [currentPlayers] is non-empty only when [currentTeam] is
    set. *)
Theorem roster_only_with_team (page : UIManager) (evs : list Event) :
  currentPlayers (playerManager (runEvents evs (newApp page))) <> [] ->
  currentTeam (playerManager (runEvents evs (newApp page))) <> None.
Proof.
  apply (runEvents_preserves rosterHasTeam (fun _ => True)).
  - intros st ev _. apply roster_preserved.
  - apply Forall_always.
  - intros H. contradiction H. reflexivity.
Qed.

Lemma roster_only_with_team_witness :
  currentTeam
    (playerManager
       (runEvents [CountryChange "Spain";
                   LoadTeamsClick (Sample.success [Sample.realBetis]);
                   TeamSelected (Sample.success [Sample.isco]) (Some "133722")
                     (Some "Real Betis") None None;
                   TeamSelected Sample.http500 (Some "133724")
                     (Some "Sevilla FC") None None] (newApp Sample.page)))
  <> None.
Proof. apply roster_only_with_team. vm_compute. discriminate. Defined.




Lemma deliveredLists_app (evs evs' : list Event) :
  deliveredLists (evs ++ evs') = deliveredLists evs ++ deliveredLists evs'.
Proof.
  induction evs as [|ev evs IH]; [reflexivity|].
  destruct ev as [v|net|text| | |net| |net id nm bd lg]; simpl; try exact IH.
  all: destruct (delivered net); simpl; rewrite IH; reflexivity.
Qed.

(** X4: the loaded list is replaced wholesale and never patched: after
    any sequence of events it is empty or it is, as a whole, one of the
    lists that a load or refresh of the sequence delivered. *)
Theorem teams_are_a_delivered_list (page : UIManager) (evs : list Event) :
  teams (teamManager (runEvents evs (newApp page))) = [] \/
  In (teams (teamManager (runEvents evs (newApp page)))) (deliveredLists evs).
Proof.
  induction evs as [|ev evs IH] using rev_ind; [left; reflexivity|].
  rewrite runEvents_snoc, deliveredLists_app.
  set (st := runEvents evs (newApp page)) in *.
  assert (Hkeep : teams (teamManager st) = [] \/
                  In (teams (teamManager st)) (deliveredLists evs ++ deliveredLists [ev])).
  { destruct IH as [IH|IH]; [left; exact IH | right; apply in_or_app; left; exact IH]. }
  clearbody st. clear IH. revert Hkeep.
  event_cases ev; intros Hkeep; try exact Hkeep.
  all: right; apply in_or_app; right; left; reflexivity.
Qed.

Lemma counters_preserved (st : App) (ev : Event) :
  countersAgree st -> countersAgree (dispatched st ev).
Proof.
  unfold countersAgree.
  event_cases ev; intros H;
    first [exact H | split; [reflexivity | apply H] | split; reflexivity].
Qed.

(** X5: on a page that starts with the counters "0 equipos" and "0", the
    counters agree with the TeamManager after every sequence of events:
    [teamsCount] shows the size of the filtered list and [totalTeams] the
    size of the loaded list, also after failed loads and escaping
    TypeErrors. *)
Theorem counters_agree (page : UIManager) (evs : list Event) :
  teamsCount page = "0 equipos" -> totalTeams page = "0" ->
  let st := runEvents evs (newApp page) in
  teamsCount (uiManager st)
  = (JsString.ofNat (length (filteredTeams (teamManager st))) ++ " equipos")%string /\
  totalTeams (uiManager st) = JsString.ofNat (length (teams (teamManager st))).
Proof.
  intros Hcount Htotal.
  apply (runEvents_preserves countersAgree (fun _ => True)).
  - intros st ev _. apply counters_preserved.
  - apply Forall_always.
  - split; assumption.
Qed.

Lemma counters_agree_witness :
  let st :=
    runEvents [CountryChange "Spain";
               LoadTeamsClick (Sample.success [Sample.realBetis; Sample.sevillaFC]);
               TeamSearchInput "betis";
               RefreshTeamsClick Sample.http500] (newApp Sample.page) in
  teamsCount (uiManager st)
  = (JsString.ofNat (length (filteredTeams (teamManager st))) ++ " equipos")%string /\
  totalTeams (uiManager st) = JsString.ofNat (length (teams (teamManager st))).
Proof. apply counters_agree; reflexivity. Defined.

Lemma page_preserved (st : App) (ev : Event) :
  eventDelivers ev -> pageShowsFiltered st -> pageShowsFiltered (dispatched st ev).
Proof.
  unfold pageShowsFiltered, eventDelivers.
  event_cases ev; intros Hev H;
    first [exact H | reflexivity | congruence].
Qed.

(** X6: on a page whose team container starts empty, and as long as no
    request for teams fails, the container shows after every event
    exactly the filtered list of the TeamManager, in order, each card in
    the current view type. *)
Theorem page_shows_filtered (page : UIManager) (evs : list Event) :
  teamsContainer page = [] -> Forall eventDelivers evs ->
  let st := runEvents evs (newApp page) in
  teamsContainer (uiManager st)
  = List.map (fun team => (team, currentView (teamManager st)))
      (filteredTeams (teamManager st)).
Proof.
  intros Hpage Hevs.
  apply (runEvents_preserves pageShowsFiltered eventDelivers).
  - apply page_preserved.
  - exact Hevs.
  - exact Hpage.
Qed.

Lemma page_shows_filtered_witness :
  let st :=
    runEvents [CountryChange "Spain"; ListViewClick;
               LoadTeamsClick (Sample.success [Sample.realBetis; Sample.sevillaFC]);
               TeamSearchInput "betis"] (newApp Sample.page) in
  teamsContainer (uiManager st)
  = List.map (fun team => (team, currentView (teamManager st)))
      (filteredTeams (teamManager st)).
Proof.
  apply page_shows_filtered; [reflexivity|].
  constructor; [exact I|]. constructor; [exact I|].
  constructor; [discriminate|]. constructor; [exact I | constructor].
Defined.

(** ** Exceptions that escape a listener *)

Lemma handle_load (net : FetchOutcome Team) (st : App) :
  handle (LoadTeamsClick net) st
  = (Normal tt, teamsRequested net (countrySelect (uiManager st)) st)
  /\ handle (RefreshTeamsClick net) st = handle (LoadTeamsClick net) st.
Proof.
  split; [|reflexivity].
  cbn [handle]. unfold bind, gets; cbv beta iota.
  destruct (JsString.truthy (countrySelect (uiManager st))) eqn:Hc.
  - apply loadTeams_run.
  - unfold teamsRequested. rewrite Hc. reflexivity.
Qed.

Lemma handle_selected (net : FetchOutcome Player)
    (id nm bd lg : option string) (st : App) :
  handle (TeamSelected net id nm bd lg) st
  = (Normal tt, playersRequested net id nm bd lg st).
Proof.
  cbn [handle]. destruct (JsString.truthyField id) eqn:Hid.
  - apply loadPlayers_run.
  - unfold playersRequested, given. rewrite Hid. reflexivity.
Qed.

Lemma handle_named_normal (st : App) (ev : Event) :
  Forall hasName (teams (teamManager st)) -> fst (handle ev st) = Normal tt.
Proof.
  intros Hall.
  destruct ev as [v|net|text| | |net| |net id nm bd lg].
  - reflexivity.
  - rewrite (proj1 (handle_load net st)). reflexivity.
  - cbn [handle]. rewrite (filterTeams_named _ _ Hall). reflexivity.
  - cbn [handle]. rewrite switchView_run. reflexivity.
  - cbn [handle]. rewrite switchView_run. reflexivity.
  - rewrite (proj2 (handle_load net st)), (proj1 (handle_load net st)).
    reflexivity.
  - reflexivity.
  - rewrite handle_selected. reflexivity.
Qed.

(** X7: the only listener that lets an exception escape is the one of the
    search box, and it does so exactly when the text is not blank and a
    loaded team has no name; every other listener, the loads with failing
    requests included, ends normally in every state. *)
Theorem listeners_throw_only_on_search (st : App) (ev : Event) :
  fst (handle ev st) = Normal tt /\
  (forall text, ev = TeamSearchInput text ->
     normalize text = "" \/ Forall hasName (teams (teamManager st)))
  \/
  fst (handle ev st) = Throw TypeError /\
  (exists text, ev = TeamSearchInput text /\ normalize text <> "" /\
     Exists (fun team => strTeam team = None) (teams (teamManager st))).
Proof.
  destruct ev as [v|net|text| | |net| |net id nm bd lg].
  - left. split; [reflexivity | discriminate].
  - left. rewrite (proj1 (handle_load net st)). split; [reflexivity | discriminate].
  - cbn [handle].
    destruct (string_dec (normalize text) "") as [Hs|Hs].
    + left. rewrite (filterTeams_empty _ _ Hs).
      split; [reflexivity|]. intros ? E; inversion E; subst. left; exact Hs.
    + destruct (named_or_not (teams (teamManager st))) as [Hall|Hex].
      * left. rewrite (filterTeams_named _ _ Hall).
        split; [reflexivity|]. intros ? _. right; exact Hall.
      * right. rewrite (filterTeams_unnamed _ _ Hs Hex).
        split; [reflexivity|]. exists text. auto.
  - left. cbn [handle]. rewrite switchView_run. split; [reflexivity | discriminate].
  - left. cbn [handle]. rewrite switchView_run. split; [reflexivity | discriminate].
  - left. rewrite (proj2 (handle_load net st)), (proj1 (handle_load net st)).
    split; [reflexivity | discriminate].
  - left. split; [reflexivity | discriminate].
  - left. rewrite handle_selected. split; [reflexivity | discriminate].
Qed.

Lemma named_preserved (st : App) (ev : Event) :
  eventNamed ev -> Forall hasName (teams (teamManager st)) ->
  Forall hasName (teams (teamManager (dispatched st ev))).
Proof.
  unfold eventNamed.
  event_cases ev; intros Hev H; first [exact H | exact Hev].
Qed.

(** X8: when every team that the requests deliver has a name, no listener
    ever lets an exception escape: after any such sequence of events,
    the listener of any further event ends normally. *)
Theorem named_runs_never_throw (page : UIManager) (evs : list Event)
    (ev : Event) :
  Forall eventNamed evs ->
  fst (handle ev (runEvents evs (newApp page))) = Normal tt.
Proof.
  intros Hevs.
  assert (Hall : Forall hasName (teams (teamManager (runEvents evs (newApp page))))).
  { apply (runEvents_preserves
             (fun st => Forall hasName (teams (teamManager st))) eventNamed).
    - apply named_preserved.
    - exact Hevs.
    - constructor. }
  exact (handle_named_normal _ ev Hall).
Qed.

Lemma named_runs_never_throw_witness :
  fst (handle (TeamSearchInput "Sevilla")
         (runEvents [CountryChange "Spain";
                     LoadTeamsClick (Sample.success [Sample.realBetis; Sample.sevillaFC]);
                     TeamSearchInput "x"; RefreshTeamsClick Sample.http500]
            (newApp Sample.page))) = Normal tt.
Proof.
  apply named_runs_never_throw.
  constructor; [exact I|]. constructor.
  - simpl. constructor; [discriminate|]. constructor; [discriminate | constructor].
  - constructor; [exact I|]. constructor; [exact I | constructor].
Defined.

(** ** Trimming and lower case *)

Section Normalize.

Lemma lowerChar_idem (c : ascii) :
  JsString.lowerChar (JsString.lowerChar c) = JsString.lowerChar c.
Proof. destruct c as [[] [] [] [] [] [] [] []]; vm_compute; reflexivity. Qed.

Lemma isSpace_lowerChar (c : ascii) :
  JsString.isSpace (JsString.lowerChar c) = JsString.isSpace c.
Proof. destruct c as [[] [] [] [] [] [] [] []]; vm_compute; reflexivity. Qed.

Lemma toLowerCase_idem (s : string) :
  JsString.toLowerCase (JsString.toLowerCase s) = JsString.toLowerCase s.
Proof.
  induction s as [|c s IH]; simpl; [reflexivity|].
  rewrite lowerChar_idem, IH. reflexivity.
Qed.

Lemma trimStart_toLowerCase (s : string) :
  JsString.trimStart (JsString.toLowerCase s)
  = JsString.toLowerCase (JsString.trimStart s).
Proof.
  induction s as [|c s IH]; simpl; [reflexivity|].
  rewrite isSpace_lowerChar. destruct (JsString.isSpace c); [exact IH | reflexivity].
Qed.

Lemma trimEnd_toLowerCase (s : string) :
  JsString.trimEnd (JsString.toLowerCase s)
  = JsString.toLowerCase (JsString.trimEnd s).
Proof.
  induction s as [|c s IH]; simpl; [reflexivity|].
  rewrite IH, isSpace_lowerChar.
  destruct (JsString.trimEnd s); simpl; [|reflexivity].
  destruct (JsString.isSpace c); reflexivity.
Qed.

Lemma trim_toLowerCase (s : string) :
  JsString.trim (JsString.toLowerCase s) = JsString.toLowerCase (JsString.trim s).
Proof.
  unfold JsString.trim. rewrite trimStart_toLowerCase. apply trimEnd_toLowerCase.
Qed.

Lemma trimEnd_idem (s : string) :
  JsString.trimEnd (JsString.trimEnd s) = JsString.trimEnd s.
Proof.
  induction s as [|c s IH]; simpl; [reflexivity|].
  destruct (JsString.trimEnd s) as [|d t] eqn:Ht.
  - destruct (JsString.isSpace c) eqn:Hc; simpl; [reflexivity|].
    rewrite Hc. reflexivity.
  - change (JsString.trimEnd (String c (String d t)))
      with (match JsString.trimEnd (String d t) with
            | EmptyString =>
                if JsString.isSpace c then EmptyString else String c EmptyString
            | String a r => String c (String a r)
            end).
    rewrite IH. reflexivity.
Qed.

(** A string that does not start with white space keeps its first
    code unit under [trimEnd]. *)
Lemma trimEnd_head (c : ascii) (s : string) :
  JsString.isSpace c = false ->
  exists t, JsString.trimEnd (String c s) = String c t.
Proof.
  intros Hc. simpl. destruct (JsString.trimEnd s) as [|d t].
  - rewrite Hc. exists EmptyString. reflexivity.
  - exists (String d t). reflexivity.
Qed.

Lemma trimStart_head (s : string) :
  JsString.trimStart s = "" \/
  exists c t, JsString.trimStart s = String c t /\ JsString.isSpace c = false.
Proof.
  induction s as [|c s IH]; simpl; [left; reflexivity|].
  destruct (JsString.isSpace c) eqn:Hc; [exact IH|].
  right. exists c, s. split; [reflexivity | exact Hc].
Qed.

Lemma trim_idem (s : string) : JsString.trim (JsString.trim s) = JsString.trim s.
Proof.
  unfold JsString.trim.
  assert (H : JsString.trimStart (JsString.trimEnd (JsString.trimStart s))
              = JsString.trimEnd (JsString.trimStart s)).
  { destruct (trimStart_head s) as [E|(c & t & E & Hc)]; rewrite E.
    - reflexivity.
    - destruct (trimEnd_head c t Hc) as [t' E']. rewrite E'. simpl.
      rewrite Hc. reflexivity. }
  rewrite H. apply trimEnd_idem.
Qed.

Lemma normalize_idem (s : string) : normalize (normalize s) = normalize s.
Proof.
  unfold normalize.
  rewrite trim_toLowerCase, trim_idem, <- trim_toLowerCase, toLowerCase_idem.
  reflexivity.
Qed.

End Normalize.

Lemma term_preserved (st : App) (ev : Event) :
  normalize (searchTerm (teamManager st)) = searchTerm (teamManager st) ->
  normalize (searchTerm (teamManager (dispatched st ev)))
  = searchTerm (teamManager (dispatched st ev)).
Proof.
  event_cases ev; intros H;
    first [exact H | reflexivity | apply normalize_idem].
Qed.

(** X9: after any sequence of events the stored search term is in normal
    form: lower-casing and trimming it again changes nothing.  The text
    of the search box is stored trimmed and in lower case, and a
    successful load resets it to the empty string. *)
Theorem searchTerm_in_normal_form (page : UIManager) (evs : list Event) :
  let term := searchTerm (teamManager (runEvents evs (newApp page))) in
  JsString.trim (JsString.toLowerCase term) = term.
Proof.
  apply (runEvents_preserves
           (fun st => normalize (searchTerm (teamManager st))
                      = searchTerm (teamManager st)) (fun _ => True)).
  - intros st ev _. apply term_preserved.
  - apply Forall_always.
  - reflexivity.
Qed.

(** ** The search as a substring test *)

Section Substring.

Lemma append_assoc' (a b c : string) : ((a ++ b) ++ c = a ++ (b ++ c))%string.
Proof. induction a as [|x a IH]; simpl; [reflexivity | rewrite IH; reflexivity]. Qed.

Lemma prefix_spec (p s : string) :
  String.prefix p s = true <-> exists post, s = (p ++ post)%string.
Proof.
  revert s. induction p as [|a p IH]; intros s.
  - rewrite prefix_empty. split; [intros _; exists s; reflexivity | reflexivity].
  - destruct s as [|b s]; simpl.
    + split; [discriminate | intros [post E]; discriminate].
    + destruct (ascii_dec a b) as [->|Hab].
      * rewrite IH. split; intros [post E]; exists post.
        -- rewrite E. reflexivity.
        -- inversion E. reflexivity.
      * split; [discriminate|]. intros [post E]. inversion E. congruence.
Qed.

Lemma includes_unfold (s sub : string) :
  JsString.includes s sub
  = String.prefix sub s ||
    match s with
    | EmptyString => false
    | String _ s' => JsString.includes s' sub
    end.
Proof. destruct s; reflexivity. Qed.

(** [includes] is the test for a contiguous occurrence. *)
Lemma includes_spec (s sub : string) :
  JsString.includes s sub = true <->
  exists pre post, s = (pre ++ sub ++ post)%string.
Proof.
  split.
  - induction s as [|c s IH]; rewrite includes_unfold, orb_true_iff.
    + intros [H|H]; [|discriminate].
      apply prefix_spec in H as [post E]. exists EmptyString, post. exact E.
    + intros [H|H].
      * apply prefix_spec in H as [post E]. exists EmptyString, post. exact E.
      * destruct (IH H) as (pre & post & E).
        exists (String c pre), post. rewrite E. reflexivity.
  - intros (pre & post & E). revert s E.
    induction pre as [|c pre IH]; intros s E; rewrite includes_unfold.
    + apply orb_true_iff. left. apply prefix_spec. exists post. exact E.
    + rewrite E. simpl. apply orb_true_iff. right. apply (IH _ eq_refl).
Qed.

Lemma includes_trans (x b a : string) :
  JsString.includes x b = true -> JsString.includes b a = true ->
  JsString.includes x a = true.
Proof.
  rewrite !includes_spec. intros (p & q & ->) (p' & q' & ->).
  exists (p ++ p')%string, (q' ++ q)%string.
  rewrite !append_assoc'. reflexivity.
Qed.

Lemma fieldIncludes_narrows (field : option string) (wide narrow : string) :
  JsString.includes narrow wide = true ->
  fieldIncludes field narrow = true -> fieldIncludes field wide = true.
Proof.
  intros Hsub. destruct field as [f|]; simpl; [|discriminate].
  intros H. exact (includes_trans _ _ _ H Hsub).
Qed.

Lemma matchesTerm_narrows (wide narrow : string) (team : Team) :
  JsString.includes narrow wide = true ->
  matchesTerm narrow team = true -> matchesTerm wide team = true.
Proof.
  intros Hsub. unfold matchesTerm. rewrite !orb_true_iff.
  intros [[H|H]|H]; eauto using fieldIncludes_narrows.
Qed.

Lemma filter_narrows {A} (p q : A -> bool) (l : list A) :
  (forall x, p x = true -> q x = true) ->
  List.filter p l `sublist_of` List.filter q l.
Proof.
  intros Hpq. induction l as [|x l IH]; simpl; [constructor|].
  destruct (p x) eqn:Hp.
  - rewrite (Hpq _ Hp). apply sublist_skip, IH.
  - destruct (q x); [apply sublist_cons|]; exact IH.
Qed.

End Substring.

(** X10: on a list of named teams the filter is a substring search: it
    keeps exactly the teams of the list whose name, league or stadium
    ([strStadium]) has, in lower case, a contiguous occurrence of the
    trimmed lower-case search text. *)
Theorem filter_is_substring_search (st : App) (L : list Team) (s : string) :
  Forall hasName L ->
  exists kept,
    filtered st L s = Normal kept /\
    forall team,
      In team kept <->
      In team L /\
      exists field pre post,
        In (Some field) [strTeam team; strLeague team; strStadium team] /\
        JsString.toLowerCase field
        = (pre ++ JsString.trim (JsString.toLowerCase s) ++ post)%string.
Proof.
  intros HL. eexists. split; [apply filtered_named, HL|].
  intros team. rewrite filter_In. fold (normalize s).
  apply and_iff_compat_l. unfold matchesTerm. rewrite !orb_true_iff.
  split.
  - intros H.
    assert (Hf : exists f, In (Some f) [strTeam team; strLeague team; strStadium team]
                           /\ JsString.includes (JsString.toLowerCase f) (normalize s) = true).
    { simpl. unfold fieldIncludes in H.
      destruct H as [[H|H]|H];
        [destruct (strTeam team) as [f|] | destruct (strLeague team) as [f|]
         | destruct (strStadium team) as [f|]];
        try discriminate; exists f; auto. }
    destruct Hf as (f & Hin & Hinc). apply includes_spec in Hinc as (pre & post & E).
    exists f, pre, post. split; assumption.
  - intros (f & pre & post & Hin & E).
    assert (Hinc : fieldIncludes (Some f) (normalize s) = true).
    { simpl. apply includes_spec. exists pre, post. exact E. }
    simpl in Hin. destruct Hin as [Hin|[Hin|[Hin|[]]]]; rewrite Hin; auto.
Qed.

Lemma filter_is_substring_search_witness :
  exists kept,
    filtered (newApp Sample.page) [Sample.realBetis; Sample.sevillaFC] " LIGA"
    = Normal kept /\
    forall team,
      In team kept <->
      In team [Sample.realBetis; Sample.sevillaFC] /\
      exists field pre post,
        In (Some field) [strTeam team; strLeague team; strStadium team] /\
        JsString.toLowerCase field
        = (pre ++ JsString.trim (JsString.toLowerCase " LIGA") ++ post)%string.
Proof.
  apply filter_is_substring_search.
  constructor; [discriminate|]. constructor; [discriminate | constructor].
Defined.

(** X11: a longer search text can only narrow the result: on a list of
    named teams, when the normal form of [s1] occurs in the normal form
    of [s2], the teams kept for [s2] are a subsequence of the teams kept
    for [s1]. *)
Theorem longer_text_narrows (st : App) (L : list Team) (s1 s2 : string) :
  Forall hasName L ->
  JsString.includes (normalize s2) (normalize s1) = true ->
  exists kept1 kept2,
    filtered st L s1 = Normal kept1 /\
    filtered st L s2 = Normal kept2 /\
    kept2 `sublist_of` kept1.
Proof.
  intros HL Hsub. do 2 eexists.
  split; [apply filtered_named, HL|]. split; [apply filtered_named, HL|].
  apply filter_narrows. intros team. apply matchesTerm_narrows, Hsub.
Qed.

Lemma longer_text_narrows_witness :
  exists kept1 kept2,
    filtered (newApp Sample.page) [Sample.realBetis; Sample.sevillaFC] "Se"
    = Normal kept1 /\
    filtered (newApp Sample.page) [Sample.realBetis; Sample.sevillaFC] "sevilla "
    = Normal kept2 /\
    kept2 `sublist_of` kept1.
Proof.
  apply longer_text_narrows.
  - constructor; [discriminate|]. constructor; [discriminate | constructor].
  - reflexivity.
Defined.

(** X12: the search has no memory: on a list of named teams, the state
    after filterTeams(s1) followed by filterTeams(s2) is the state after
    filterTeams(s2) alone, so a second text never searches inside the
    result of the first. *)
Theorem last_search_wins (st : App) (s1 s2 : string) :
  Forall hasName (teams (teamManager st)) ->
  snd (filterTeams s2 (snd (filterTeams s1 st))) = snd (filterTeams s2 st).
Proof.
  intros Hall. rewrite (filterTeams_named s1 st Hall). simpl snd.
  rewrite (filterTeams_named s2 st Hall).
  rewrite filterTeams_named by exact Hall.
  simpl snd. unfold afterFilter. rewrite !displayTeams_map. reflexivity.
Qed.

Lemma last_search_wins_witness :
  snd (filterTeams "betis" (snd (filterTeams "sevilla" Sample.spainLoaded)))
  = snd (filterTeams "betis" Sample.spainLoaded).
Proof.
  apply last_search_wins.
  constructor; [discriminate|]. constructor; [discriminate | constructor].
Defined.

(** X13: the last view button wins: switchView(w) after switchView(v)
    leaves the state that switchView(w) alone leaves, whatever the lists
    hold. *)
Theorem last_view_wins (st : App) (v w : View) :
  switchView w (snd (switchView v st)) = switchView w st.
Proof.
  rewrite !switchView_run. simpl snd. f_equal.
  unfold viewSwitched. simpl.
  destruct (filteredTeams (teamManager st)); reflexivity.
Qed.

(** ** clearTeams, the getters and the services *)

(** X14: clearTeams ends normally and returns the TeamManager to its
    constructed state except for the view type, which it keeps; it
    renders the empty container, the counter "0 equipos" and the title
    "Equipos", but leaves the [totalTeams] counter and the PlayerManager
    as they were.  It is idempotent, and after it every search ends
    normally with an empty result. *)
Theorem clearTeams_resets (st : App) (text : string) :
  let st' := snd (clearTeams st) in
  fst (clearTeams st) = Normal tt /\
  teamManager st'
  = set_currentView (currentView (teamManager st)) newTeamManager /\
  playerManager st' = playerManager st /\
  teamsContainer (uiManager st') = [] /\
  teamsCount (uiManager st') = "0 equipos" /\
  countryTitle (uiManager st') = "Equipos" /\
  totalTeams (uiManager st') = totalTeams (uiManager st) /\
  clearTeams st' = (Normal tt, st') /\
  fst (filterTeams text st') = Normal tt /\
  filteredTeams (teamManager (snd (filterTeams text st'))) = [].
Proof.
  cbv zeta. rewrite clearTeams_run. simpl fst. simpl snd.
  split; [reflexivity|]. split; [reflexivity|]. split; [reflexivity|].
  split; [reflexivity|]. split; [reflexivity|]. split; [reflexivity|].
  split; [reflexivity|]. split; [reflexivity|].
  rewrite filterTeams_named by constructor. split; reflexivity.
Qed.

(** X15: loadPlayers with a team id always shows the team header, but it
    shows the players section only when the request delivers at least
    one player: after an empty list or a failed request the section keeps
    the visibility it had, so it stays hidden if it was closed before. *)
Theorem players_section_needs_players (st : App) (net : FetchOutcome Player)
    (teamId name badge league : option string) :
  given teamId = true ->
  let st' := snd (loadPlayers net teamId name badge league st) in
  teamInfo (uiManager st') = true /\
  teamName (uiManager st') = name /\
  playersSection (uiManager st')
  = match delivered net with
    | Some (_ :: _) => true
    | _ => playersSection (uiManager st)
    end.
Proof.
  intros Hid. cbv zeta. rewrite loadPlayers_run. simpl snd.
  unfold playersRequested. rewrite Hid.
  destruct (delivered net) as [[|p ps]|]; repeat split; reflexivity.
Qed.

Lemma players_section_needs_players_witness :
  playersSection
    (uiManager
       (snd (loadPlayers (Sample.success []) (Some "134301") (Some "Sevilla FC")
               None None (snd (hidePlayers Sample.rosterOpen))))) = false.
Proof.
  exact (proj2 (proj2 (players_section_needs_players
           (snd (hidePlayers Sample.rosterOpen)) (Sample.success [])
           (Some "134301") (Some "Sevilla FC") None None eq_refl))).
Defined.

Lemma request_contract {A} (label message : string) :
  apiContract (@request A label message) label message.
Proof.
  intros net st. cbv zeta.
  destruct net as [|[] [|[L|]]]; simpl; repeat split; reflexivity.
Qed.

(** X16: the three request methods of the ApiService treat the outcomes
    alike: a status that is not ok throws even when the body holds a
    list, an ok body without the list property yields the empty list, a
    body that does not decode throws, every failure is logged once under
    the label of the method and thrown on unchanged, and no state but the
    console is written. *)
Theorem ApiService_contract (country teamId : string) :
  apiContract getCountries "Error en getCountries:" errorCountries /\
  apiContract (fun net => getTeamsByCountry net country)
    "Error en getTeamsByCountry:" "Error al cargar equipos" /\
  apiContract (fun net => getPlayersByTeam net teamId)
    "Error en getPlayersByTeam:" "Error al cargar jugadores".
Proof. repeat split; apply request_contract. Qed.

(** X17: a failed load is logged twice, once by the ApiService and once
    by the manager, both times with the same error, and a load that
    succeeds logs nothing: loadTeams and loadPlayers append exactly these
    lines to the console. *)
Theorem failures_are_logged_twice (st : App) :
  (forall (net : FetchOutcome Team) (country : string),
      given (Some country) = true ->
      console (snd (loadTeams net (Some country) st))
      = match delivered net with
        | Some _ => console st
        | None =>
            let e := failureOf "Error al cargar equipos" net in
            console st ++ [("Error en getTeamsByCountry:", e);
                           ("Error cargando equipos:", e)]
        end) /\
  (forall (net : FetchOutcome Player) (teamId : string)
          (teamName teamBadge teamLeague : option string),
      given (Some teamId) = true ->
      console (snd (loadPlayers net (Some teamId) teamName teamBadge teamLeague st))
      = match delivered net with
        | Some _ => console st
        | None =>
            let e := failureOf "Error al cargar jugadores" net in
            console st ++ [("Error en getPlayersByTeam:", e);
                           ("Error cargando jugadores:", e)]
        end).
Proof.
  split.
  - intros net country Hc. rewrite loadTeams_run. simpl snd.
    unfold teamsRequested. simpl in Hc. rewrite Hc.
    destruct (delivered net); simpl; [reflexivity|].
    rewrite <- app_assoc. reflexivity.
  - intros net teamId nm bd lg Hid. rewrite loadPlayers_run. simpl snd.
    unfold playersRequested. rewrite Hid.
    destruct (delivered net); simpl; [reflexivity|].
    rewrite <- app_assoc. reflexivity.
Qed.

Lemma failures_are_logged_twice_witness :
  console (snd (loadTeams Sample.http500 (Some "Spain") (newApp Sample.page)))
  = [("Error en getTeamsByCountry:", HttpError "Error al cargar equipos");
     ("Error cargando equipos:", HttpError "Error al cargar equipos")].
Proof.
  exact (proj1 (failures_are_logged_twice (newApp Sample.page))
           Sample.http500 "Spain" eq_refl).
Defined.

Lemma button_preserved (st : App) (ev : Event) :
  loadTeamsBtn (uiManager st) = JsString.truthy (countrySelect (uiManager st)) ->
  loadTeamsBtn (uiManager (dispatched st ev))
  = JsString.truthy (countrySelect (uiManager (dispatched st ev))).
Proof.
  event_cases ev; intros H;
    first [exact H | apply negb_involutive | congruence].
Qed.

(** X18: the load button follows the country selector: on a page where
    the button is enabled exactly when a country is selected, this holds
    again after every sequence of events, and a click on load or refresh
    with no country selected changes nothing. *)
Theorem load_button_follows_selection (page : UIManager) (evs : list Event) :
  loadTeamsBtn page = JsString.truthy (countrySelect page) ->
  let st := runEvents evs (newApp page) in
  loadTeamsBtn (uiManager st) = JsString.truthy (countrySelect (uiManager st)) /\
  (forall net,
      countrySelect (uiManager st) = "" ->
      handle (LoadTeamsClick net) st = (Normal tt, st) /\
      handle (RefreshTeamsClick net) st = (Normal tt, st)).
Proof.
  intros Hpage st. split.
  - apply (runEvents_preserves
             (fun st => loadTeamsBtn (uiManager st)
                        = JsString.truthy (countrySelect (uiManager st)))
             (fun _ => True)).
    + intros st0 ev _. apply button_preserved.
    + apply Forall_always.
    + exact Hpage.
  - intros net Hc.
    rewrite (proj2 (handle_load net st)), (proj1 (handle_load net st)).
    unfold teamsRequested. rewrite Hc. split; reflexivity.
Qed.

Lemma load_button_follows_selection_witness :
  let st := runEvents [CountryChange "Spain"; CountryChange ""] (newApp Sample.page) in
  loadTeamsBtn (uiManager st) = false /\
  handle (LoadTeamsClick Sample.http500) st = (Normal tt, st).
Proof.
  pose proof (load_button_follows_selection Sample.page
                [CountryChange "Spain"; CountryChange ""] eq_refl) as [Hb Hc].
  split; [exact Hb | exact (proj1 (Hc Sample.http500 eq_refl))].
Defined.

(** X19: the getters report what the managers store, not what the page
    shows: getCurrentCountry returns the country of the last load that
    was started, also when its request failed; getPlayerCount and
    getCurrentTeam return the roster and team of the last request for
    players that succeeded, so after a failed one they still return the
    earlier roster; after hidePlayers they return 0 and null, and after
    clearTeams getCurrentCountry returns the empty string. *)
Theorem getters_report_stored_state (st : App) :
  (forall (net : FetchOutcome Team) (country : string),
      given (Some country) = true ->
      fst (getCurrentCountry (snd (loadTeams net (Some country) st)))
      = Normal country) /\
  (forall (net : FetchOutcome Player) (teamId : string)
          (nm bd lg : option string),
      given (Some teamId) = true ->
      let st' := snd (loadPlayers net (Some teamId) nm bd lg st) in
      fst (getPlayerCount st')
      = Normal (match delivered net with
                | Some players => length players
                | None => length (currentPlayers (playerManager st))
                end) /\
      fst (getCurrentTeam st')
      = Normal (match delivered net with
                | Some _ => Some {| name := nm; badge := bd; league := lg |}
                | None => currentTeam (playerManager st)
                end)) /\
  fst (getPlayerCount (snd (hidePlayers st))) = Normal 0 /\
  fst (getCurrentTeam (snd (hidePlayers st))) = Normal None /\
  fst (getCurrentCountry (snd (clearTeams st))) = Normal "".
Proof.
  split; [|split; [|repeat split; reflexivity]].
  - intros net country Hc. rewrite loadTeams_run. simpl snd.
    unfold teamsRequested. simpl in Hc. rewrite Hc.
    destruct (delivered net); reflexivity.
  - intros net teamId nm bd lg Hid. cbv zeta. rewrite loadPlayers_run.
    simpl snd. unfold playersRequested. rewrite Hid.
    destruct (delivered net); split; reflexivity.
Qed.

Lemma getters_report_stored_state_witness :
  fst (getCurrentCountry
         (snd (loadTeams Sample.http500 (Some "France") Sample.spainLoaded)))
  = Normal "France" /\
  fst (getPlayerCount
         (snd (loadPlayers Sample.http500 (Some "133724") None None None
                 Sample.rosterOpen)))
  = Normal 1.
Proof.
  split.
  - exact (proj1 (getters_report_stored_state Sample.spainLoaded)
             Sample.http500 "France" eq_refl).
  - exact (proj1 (proj1 (proj2 (getters_report_stored_state Sample.rosterOpen))
             Sample.http500 "133724" None None None eq_refl)).
Defined.

(** ** What the methods leave alone *)

(** X20: filterTeams never refetches and never writes outside its own
    result: whether it ends normally or throws, the loaded list, the
    country, the view type, the PlayerManager and the console are as
    before, and on the page nothing but the team container and the
    [teamsCount] counter can differ. *)
Theorem filterTeams_frame (st : App) (text : string) :
  let st' := snd (filterTeams text st) in
  teams (teamManager st') = teams (teamManager st) /\
  currentCountry (teamManager st') = currentCountry (teamManager st) /\
  currentView (teamManager st') = currentView (teamManager st) /\
  playerManager st' = playerManager st /\
  console st' = console st /\
  uiManager st'
  = set_teamsCount (teamsCount (uiManager st'))
      (set_teamsContainer (teamsContainer (uiManager st')) (uiManager st)).
Proof.
  cbv zeta. rewrite filterTeams_run. unfold teamsFiltered.
  destruct st as [tm pm ui cs]. destruct ui.
  destruct (JsString.truthy (normalize text)); [destruct (forallb _ _)|];
    flatten_state; simpl; repeat split; reflexivity.
Qed.

(** X21: each load stays on its side of the application.  loadPlayers
    leaves the TeamManager and the team part of the page (container,
    counters, title, view buttons, country selector, load button) as
    they were; loadTeams leaves the PlayerManager and the rendered roster
    and team header as they were, it only hides them when it succeeds. *)
Theorem loads_keep_to_their_side (st : App) :
  (forall (net : FetchOutcome Player) (teamId nm bd lg : option string),
      let st' := snd (loadPlayers net teamId nm bd lg st) in
      teamManager st' = teamManager st /\
      teamsContainer (uiManager st') = teamsContainer (uiManager st) /\
      teamsCount (uiManager st') = teamsCount (uiManager st) /\
      totalTeams (uiManager st') = totalTeams (uiManager st) /\
      countryTitle (uiManager st') = countryTitle (uiManager st) /\
      gridViewBtn (uiManager st') = gridViewBtn (uiManager st) /\
      listViewBtn (uiManager st') = listViewBtn (uiManager st) /\
      countrySelect (uiManager st') = countrySelect (uiManager st) /\
      loadTeamsBtn (uiManager st') = loadTeamsBtn (uiManager st)) /\
  (forall (net : FetchOutcome Team) (country : option string),
      let st' := snd (loadTeams net country st) in
      playerManager st' = playerManager st /\
      playersContainer (uiManager st') = playersContainer (uiManager st) /\
      teamName (uiManager st') = teamName (uiManager st) /\
      teamBadge (uiManager st') = teamBadge (uiManager st) /\
      teamDetails (uiManager st') = teamDetails (uiManager st) /\
      playersTitle (uiManager st') = playersTitle (uiManager st)).
Proof.
  split.
  - intros net teamId nm bd lg. cbv zeta. rewrite loadPlayers_run. simpl snd.
    unfold playersRequested.
    destruct (given teamId); [destruct (delivered net)|];
      flatten_state; simpl; repeat split; reflexivity.
  - intros net [country|]; cbv zeta.
    + rewrite loadTeams_run. simpl snd. unfold teamsRequested.
      destruct (JsString.truthy country); [destruct (delivered net)|];
        flatten_state; simpl; repeat split; reflexivity.
    + repeat split; reflexivity.
Qed.
